(** * ScheduleOnDirective: template binding and render scheduling

    A shallow embedding of [libs/template/schedule-on] (the
    [ScheduleOnDirective], its view-context callbacks and its template-name
    resolver), of the demo application's custom ['instant'] render
    strategy and of its [RxLetInstant] directive, together with the
    properties the specification states about them and further properties
    read off the code.

    JavaScript objects live in a heap of property maps, so that object
    identity and aliasing are visible; observables that deliver
    synchronously are lists of events; effects on the outside world are
    collected in a log. *)

From stdpp Require Import base option list gmap strings.

Open Scope string_scope.
Open Scope list_scope.

(** ** JavaScript values and the object heap *)

Definition loc := positive.

Inductive JSVal : Type :=
  | JSUndefined
  | JSNull
  | JSBool (b : bool)
  | JSNum (z : Z)
  | JSStr (s : string)
  | JSObj (l : loc).

#[global] Instance JSVal_eq_dec : EqDecision JSVal.
Proof. solve_decision. Defined.

(** An object is a finite map from own enumerable property names to values;
    the heap maps object identities to objects. *)
Abbreviation JSObject := (gmap string JSVal).
Abbreviation Heap := (gmap loc (gmap string JSVal)).

(** [o[k]]: reading a missing property yields [undefined]. *)
Definition js_get (o : JSObject) (k : string) : JSVal :=
  default JSUndefined (o !! k).

(** [Object.keys(o)] *)
Definition object_keys (o : JSObject) : list string := (map_to_list o).*1.

(** Allocation of an object literal: a location not yet in the heap. *)
Definition alloc (o : JSObject) (h : Heap) : loc * Heap :=
  let l := fresh (dom h) in (l, <[l := o]> h).

(** ** Notifications (@rx-angular/cdk/notifications) *)

(** The kinds are the keys of the directive's [notificationToTemplateName]
    table, the fields those of the notification literal in [ngOnInit]. *)

Inductive RxNotificationKind : Type :=
  | Suspense
  | Next
  | Error
  | Complete.

#[global] Instance RxNotificationKind_eq_dec : EqDecision RxNotificationKind.
Proof. solve_decision. Defined.

Record RxNotification : Type := mkNotification {
  value : JSVal;
  hasValue : bool;
  kind : RxNotificationKind;
  error : JSVal;
  complete : bool;
}.

Definition is_kind (k : RxNotificationKind) (n : RxNotification) : bool :=
  bool_decide (kind n = k).

(** ** Synchronous observables (rxjs [of]) *)

Inductive ObsEvent (A : Type) : Type :=
  | OnNext (a : A)
  | OnError (e : JSVal)
  | OnComplete.
Arguments OnNext {A} a.
Arguments OnError {A} e.
Arguments OnComplete {A}.

(** The events a cold observable delivers, in order, during [subscribe]. *)
Definition Observable (A : Type) : Type := list (ObsEvent A).

Definition of_ {A : Type} (a : A) : Observable A := [OnNext a; OnComplete].

(** The values delivered to the [next] handler of a subscriber: everything
    up to the first terminal event. *)
Fixpoint next_values {A : Type} (o : Observable A) : list A :=
  match o with
  | OnNext a :: o' => a :: next_values o'
  | _ => []
  end.

(** ** Template names *)

(** [RxScheduleOnTemplateNames = { ...RxBaseTemplateNames, next: 'nextTpl' }].
    [RxBaseTemplateNames] is imported from @rx-angular/cdk/template and is a
    parameter here; the spread copies it and the [next] key is written
    last. *)
Definition RxScheduleOnTemplateNames (RxBaseTemplateNames : gmap string string)
    : gmap string string :=
  <["next" := "nextTpl"]> RxBaseTemplateNames.

(** The [notificationToTemplateName] table handed to [createTemplateManager]:
    one arrow function per notification kind, none of which looks at its
    arguments. A property read that finds nothing is [None] ([undefined]). *)
Definition notificationToTemplateName (RxBaseTemplateNames : gmap string string)
    (k : RxNotificationKind) (v : JSVal) : option string :=
  match k with
  | Suspense => RxScheduleOnTemplateNames RxBaseTemplateNames !! "next"
  | Next => RxScheduleOnTemplateNames RxBaseTemplateNames !! "next"
  | Error => RxScheduleOnTemplateNames RxBaseTemplateNames !! "next"
  | Complete => RxScheduleOnTemplateNames RxBaseTemplateNames !! "next"
  end.

(** ** View contexts *)

Definition TemplateRef := nat.

(** [EmbeddedViewRef<C>]: a view handle, holding a reference to its context
    object. *)
Record EmbeddedViewRef : Type := mkView {
  view_id : nat;
  view_template : TemplateRef;
  context : loc;
}.

#[global] Instance EmbeddedViewRef_eq_dec : EqDecision EmbeddedViewRef.
Proof. solve_decision. Defined.

(** The object literal returned by [createViewContext]. *)
Definition viewContextLiteral (v : JSVal) : JSObject :=
  <["$suspense" := JSBool false]>
  (<["$complete" := JSBool false]>
  (<["$error" := JSBool false]>
  (<["$implicit" := v]>
  (<["scheduleOn" := v]> ∅)))).

(** [createViewContext(value)]: evaluates an object literal, that is,
    allocates a new object. *)
Definition createViewContext (v : JSVal) (h : Heap) : loc * Heap :=
  alloc (viewContextLiteral v) h.

(** [target[k] = source[k]] on the heap. Dereferencing a dangling reference
    is the model's [TypeError]. *)
Definition assign_prop (target source : loc) (h : Heap) (k : string)
    : option Heap :=
  src ← h !! source;
  tgt ← h !! target;
  Some (<[target := <[k := js_get src k]> tgt]> h).

(** [keys.forEach((k) => { target[k] = source[k]; })] *)
Fixpoint forEach_assign (target source : loc) (keys : list string) (h : Heap)
    : option Heap :=
  match keys with
  | [] => Some h
  | k :: keys' => h' ← assign_prop target source h k;
                  forEach_assign target source keys' h'
  end.

(** [updateViewContext(value, view, context)]: [Object.keys(context)] is
    taken once, then every key is copied into [view.context]. The [value]
    argument is not used. *)
Definition updateViewContext (v : JSVal) (view : EmbeddedViewRef)
    (ctx : loc) (h : Heap) : option Heap :=
  o ← h !! ctx;
  forEach_assign (context view) ctx (object_keys o) h.

(** ** Subscriptions (rxjs) *)

(** What a [Subscription] can hold here: the inner subscription returned by
    [templateManager.render(...).subscribe(...)]. *)
Inductive Teardown : Type :=
  | RenderSubscription.

#[global] Instance Teardown_eq_dec : EqDecision Teardown.
Proof. solve_decision. Defined.

(** Modelled from the spec: rxjs [Subscription] is a library class outside
    the sources; the spec gives its contract as "unsubscription is idempotent
    and stops further delivery". A subscription is closed or open and holds
    the teardowns that were added to it. *)
Record Subscription : Type := mkSubscription {
  closed : bool;
  teardowns : list Teardown;
}.

(** Modelled from the spec: [new Subscription()], open and empty. *)
Definition new_Subscription : Subscription :=
  {| closed := false; teardowns := [] |}.

(** Modelled from the spec: [s.add(t)]; the second component lists the
    teardowns executed by the call (adding to a closed subscription runs the
    teardown at once, since nothing may be delivered any more). *)
Definition Subscription_add (t : Teardown) (s : Subscription)
    : Subscription * list Teardown :=
  if closed s then (s, [t])
  else ({| closed := false; teardowns := teardowns s ++ [t] |}, []).

(** Modelled from the spec: [s.unsubscribe()], idempotent; the second
    component lists the teardowns executed. *)
Definition Subscription_unsubscribe (s : Subscription)
    : Subscription * list Teardown :=
  if closed s then (s, [])
  else ({| closed := true; teardowns := [] |}, teardowns s).

(** ** The strategy selection stream *)

(** What is assigned to the [strategy] input: a plain value (a strategy
    name, or [undefined]) or an observable of names, identified by a source
    number. *)
Inductive StrategyInput : Type :=
  | StaticName (name : JSVal)
  | DynamicSource (src : nat).

(** Modelled from the spec: [coerceAllFactory] (@rx-angular/cdk/coercing) is
    not part of the sources. Following the spec's Strategy Selection Stream,
    the handler is a cell holding the current strategy name together with
    the dynamic sources supplied so far: a static value replaces the current
    name, every supplied dynamic source is merged in and each of its values
    replaces the current name, and a new subscriber is presented with the
    current name. The cell starts empty, as the [ReplaySubject(1)] of the
    factory call does. *)
Record StrategyHandler : Type := mkStrategyHandler {
  current : option JSVal;
  sources : gset nat;
}.

Definition new_StrategyHandler : StrategyHandler :=
  {| current := None; sources := ∅ |}.

(** Modelled from the spec: [strategyHandler.next(input)]. A static value
    becomes the current name; a dynamic source is merged in. *)
Definition StrategyHandler_next (i : StrategyInput) (sh : StrategyHandler)
    : StrategyHandler :=
  match i with
  | StaticName name => {| current := Some name; sources := sources sh |}
  | DynamicSource src => {| current := current sh; sources := {[src]} ∪ sources sh |}
  end.

(** Modelled from the spec: a dynamic source emits a name, which becomes the
    current name if the source was supplied. *)
Definition StrategyHandler_emit (src : nat) (name : JSVal) (sh : StrategyHandler)
    : StrategyHandler :=
  if decide (src ∈ sources sh)
  then {| current := Some name; sources := sources sh |}
  else sh.

(** Modelled from the spec: [strategyHandler.values$.subscribe(...)], what
    the new subscriber receives during the call (replay of the latest). *)
Definition values_subscribe (sh : StrategyHandler) : option JSVal := current sh.

(** ** The render coordinator *)

(** Modelled from the spec: the render coordinator lives in
    @rx-angular/cdk/template, outside the sources. One coalescing slot per
    anchor: a commit request overwrites the slot, discarding what was
    pending; when the strategy fires, the pending commit (if any) executes
    and one "rendered" event carries its payload. The counters record
    requests, executions and discards. *)
Record RenderCoordinator : Type := mkCoordinator {
  pending : option JSVal;
  requested : nat;
  executed : nat;
  discarded : nat;
}.

Definition new_RenderCoordinator : RenderCoordinator :=
  {| pending := None; requested := 0; executed := 0; discarded := 0 |}.

Definition pending_count (c : RenderCoordinator) : nat :=
  match pending c with Some _ => 1 | None => 0 end.

(** Modelled from the spec: [scheduleCommit] for this anchor; a pending
    payload is discarded and replaced. *)
Definition scheduleCommit (payload : JSVal) (c : RenderCoordinator)
    : RenderCoordinator :=
  {| pending := Some payload;
     requested := S (requested c);
     executed := executed c;
     discarded := pending_count c + discarded c |}.

(** Modelled from the spec: the strategy runs the scheduled work; the list
    holds the "rendered" event, if a commit executed. *)
Definition commitFires (c : RenderCoordinator) : RenderCoordinator * list JSVal :=
  match pending c with
  | Some payload =>
      ({| pending := None; requested := requested c;
          executed := S (executed c); discarded := discarded c |}, [payload])
  | None => (c, [])
  end.

(** Modelled from the spec: cancellation on teardown, the slot is cleared. *)
Definition cancelCommit (c : RenderCoordinator) : RenderCoordinator :=
  {| pending := None; requested := requested c;
     executed := executed c; discarded := pending_count c + discarded c |}.

(** ** The template manager *)

(** The configuration object handed to [createTemplateManager]. *)
Record TemplateManagerConfig : Type := mkConfig {
  cfg_createViewContext : JSVal → Heap → loc * Heap;
  cfg_updateViewContext : JSVal → EmbeddedViewRef → loc → Heap → option Heap;
  cfg_parent : bool;
  cfg_patchZone : bool;
  cfg_defaultStrategyName : string;
  cfg_notificationToTemplateName : RxNotificationKind → JSVal → option string;
}.

Record ActiveView : Type := mkActiveView {
  templateName : string;
  viewRef : EmbeddedViewRef;
}.

Inductive ManagerError : Type :=
  | TemplateNotFound
  | ConfigurationError.

(** Modelled from the spec: [createTemplateManager] and the manager it
    returns (@rx-angular/cdk/template) are not part of the sources. The
    state follows the spec's View/Context Manager: the registered templates,
    the host's view container, the active view of the anchor and the
    coalescing slot; [viewsCreated] and [viewsDestroyed] count the calls of
    the host's view primitives, [received] logs the notifications that
    reached [render], and [reported] what went to the error handler. *)
Record RxTemplateManager : Type := mkManager {
  config : TemplateManagerConfig;
  templates : gmap string TemplateRef;
  viewContainer : list EmbeddedViewRef;
  activeView : option ActiveView;
  coordinator : RenderCoordinator;
  viewsCreated : nat;
  viewsDestroyed : nat;
  received : list RxNotification;
  reported : list ManagerError;
}.

(** Modelled from the spec: [createTemplateManager(config)], a manager with
    no template, no view and nothing pending. *)
Definition createTemplateManager (cfg : TemplateManagerConfig) : RxTemplateManager :=
  {| config := cfg; templates := ∅; viewContainer := []; activeView := None;
     coordinator := new_RenderCoordinator; viewsCreated := 0;
     viewsDestroyed := 0; received := []; reported := [] |}.

Definition report (e : ManagerError) (m : RxTemplateManager) : RxTemplateManager :=
  {| config := config m; templates := templates m;
     viewContainer := viewContainer m; activeView := activeView m;
     coordinator := coordinator m; viewsCreated := viewsCreated m;
     viewsDestroyed := viewsDestroyed m; received := received m;
     reported := reported m ++ [e] |}.

(** Modelled from the spec: [registerTemplate(name, handle)] replaces the
    handle unless a view of that name is active, which is a configuration
    error. *)
Definition addTemplateRef (name : string) (ref : TemplateRef)
    (m : RxTemplateManager) : RxTemplateManager :=
  match activeView m with
  | Some av =>
      if decide (templateName av = name) then report ConfigurationError m
      else
        {| config := config m; templates := <[name := ref]> (templates m);
           viewContainer := viewContainer m; activeView := activeView m;
           coordinator := coordinator m; viewsCreated := viewsCreated m;
           viewsDestroyed := viewsDestroyed m; received := received m;
           reported := reported m |}
  | None =>
      {| config := config m; templates := <[name := ref]> (templates m);
         viewContainer := viewContainer m; activeView := activeView m;
         coordinator := coordinator m; viewsCreated := viewsCreated m;
         viewsDestroyed := viewsDestroyed m; received := received m;
         reported := reported m |}
  end.

(** Modelled from the spec: the host's [destroyView], for the active view of
    the anchor. *)
Definition disposeActiveView (m : RxTemplateManager) : RxTemplateManager :=
  match activeView m with
  | None => m
  | Some av =>
      {| config := config m; templates := templates m;
         viewContainer :=
           filter (λ v, view_id v ≠ view_id (viewRef av)) (viewContainer m);
         activeView := None;
         coordinator := coordinator m; viewsCreated := viewsCreated m;
         viewsDestroyed := S (viewsDestroyed m); received := received m;
         reported := reported m |}
  end.

(** Modelled from the spec: the host's [createEmbeddedView], making the new
    view the active one. *)
Definition insertView (name : string) (tpl : TemplateRef) (ctx : loc)
    (m : RxTemplateManager) : RxTemplateManager :=
  let v := {| view_id := viewsCreated m; view_template := tpl; context := ctx |} in
  {| config := config m; templates := templates m;
     viewContainer := viewContainer m ++ [v];
     activeView := Some {| templateName := name; viewRef := v |};
     coordinator := coordinator m; viewsCreated := S (viewsCreated m);
     viewsDestroyed := viewsDestroyed m; received := received m;
     reported := reported m |}.

Definition with_coordinator (c : RenderCoordinator) (m : RxTemplateManager)
    : RxTemplateManager :=
  {| config := config m; templates := templates m;
     viewContainer := viewContainer m; activeView := activeView m;
     coordinator := c; viewsCreated := viewsCreated m;
     viewsDestroyed := viewsDestroyed m; received := received m;
     reported := reported m |}.

Definition log_received (n : RxNotification) (m : RxTemplateManager)
    : RxTemplateManager :=
  {| config := config m; templates := templates m;
     viewContainer := viewContainer m; activeView := activeView m;
     coordinator := coordinator m; viewsCreated := viewsCreated m;
     viewsDestroyed := viewsDestroyed m; received := received m ++ [n];
     reported := reported m |}.

(** Is the active view one of template [name]? *)
Definition active_named (name : string) (m : RxTemplateManager)
    : option ActiveView :=
  match activeView m with
  | Some av => if decide (templateName av = name) then Some av else None
  | None => None
  end.

Inductive ManagerEvent : Type :=
  | Notify (n : RxNotification)
  | CommitFires.

Section TemplateManager.

(** The record of fields the manager patches into a reused view for a
    notification is not given by the spec: any function will do. *)
Variable contextOf : RxNotification → JSObject.

(** Modelled from the spec: [render], one notification. Resolve the
    template name; reuse and patch the active view if it has that name,
    otherwise dispose it and create a view of the resolved template bound to
    a context from the factory callback; then request a commit. [None] is an
    exception escaping from a callback. *)
Definition manager_notify (n : RxNotification) (m0 : RxTemplateManager)
    (h : Heap) : option (RxTemplateManager * Heap) :=
  let m := log_received n m0 in
  match cfg_notificationToTemplateName (config m) (kind n) (value n) with
  | None => Some (report TemplateNotFound m, h)
  | Some name =>
      match active_named name m with
      | Some av =>
          let '(c, h1) := alloc (contextOf n) h in
          h2 ← cfg_updateViewContext (config m) (value n) (viewRef av) c h1;
          Some (with_coordinator (scheduleCommit (value n) (coordinator m)) m, h2)
      | None =>
          match templates m !! name with
          | None => Some (report TemplateNotFound m, h)
          | Some tpl =>
              let '(c, h1) := cfg_createViewContext (config m) (value n) h in
              let m1 := insertView name tpl c (disposeActiveView m) in
              Some (with_coordinator
                      (scheduleCommit (value n) (coordinator m1)) m1, h1)
          end
      end
  end.

(** Modelled from the spec: one event of the anchor's state machine; the
    list holds the "rendered" events forwarded downstream. *)
Definition manager_step (ev : ManagerEvent) (m : RxTemplateManager) (h : Heap)
    : option (RxTemplateManager * Heap * list JSVal) :=
  match ev with
  | Notify n => '(m', h') ← manager_notify n m h; Some (m', h', [])
  | CommitFires =>
      let '(c, out) := commitFires (coordinator m) in
      Some (with_coordinator c m, h, out)
  end.

(** Modelled from the spec: a trace of events, processed in arrival
    order. *)
Fixpoint manager_run (tr : list ManagerEvent) (m : RxTemplateManager)
    (h : Heap) : option (RxTemplateManager * Heap * list JSVal) :=
  match tr with
  | [] => Some (m, h, [])
  | ev :: tr' =>
      '(m1, h1, out1) ← manager_step ev m h;
      '(m2, h2, out2) ← manager_run tr' m1 h1;
      Some (m2, h2, out1 ++ out2)
  end.

(** Modelled from the spec: [render(values$).subscribe(...)] for a
    synchronous [values$], every value is processed during the call. *)
Definition manager_render (values : Observable RxNotification)
    (m : RxTemplateManager) (h : Heap) : option (RxTemplateManager * Heap) :=
  '(m', h', _) ← manager_run (Notify <$> next_values values) m h;
  Some (m', h').

End TemplateManager.

(** Modelled from the spec: teardown of the anchor, the pending commit is
    cancelled. *)
Definition manager_teardown (m : RxTemplateManager) : RxTemplateManager :=
  with_coordinator (cancelCommit (coordinator m)) m.

(** ** The directive *)

(** A [NextObserver], identified by a number. *)
Definition NextObserver := nat.

(** What the directive reads from the injected [RxStrategyProvider]. *)
Record RxStrategyProvider : Type := mkProvider {
  primaryStrategy : string;
  config_patchZone : bool;
}.

(** The fields of [ScheduleOnDirective]. [templateManager] is [None] until
    [_createTemplateManager] has run. The class has no input for a source
    observable. *)
Record ScheduleOnDirective : Type := mkDirective {
  strategyProvider : RxStrategyProvider;
  nextTemplateRef : TemplateRef;
  renderParent : bool;
  patchZone : bool;
  strategyHandler : StrategyHandler;
  _renderObserver : option NextObserver;
  subscription : Subscription;
  templateManager : option RxTemplateManager;
}.

(** Field initialisers and constructor. *)
Definition new_ScheduleOnDirective (sp : RxStrategyProvider) (tpl : TemplateRef)
    : ScheduleOnDirective :=
  {| strategyProvider := sp; nextTemplateRef := tpl; renderParent := true;
     patchZone := config_patchZone sp; strategyHandler := new_StrategyHandler;
     _renderObserver := None; subscription := new_Subscription;
     templateManager := None |}.

Definition with_strategyHandler (sh : StrategyHandler) (d : ScheduleOnDirective)
    : ScheduleOnDirective :=
  {| strategyProvider := strategyProvider d; nextTemplateRef := nextTemplateRef d;
     renderParent := renderParent d; patchZone := patchZone d;
     strategyHandler := sh; _renderObserver := _renderObserver d;
     subscription := subscription d; templateManager := templateManager d |}.

Definition with_renderObserver (o : option NextObserver) (d : ScheduleOnDirective)
    : ScheduleOnDirective :=
  {| strategyProvider := strategyProvider d; nextTemplateRef := nextTemplateRef d;
     renderParent := renderParent d; patchZone := patchZone d;
     strategyHandler := strategyHandler d; _renderObserver := o;
     subscription := subscription d; templateManager := templateManager d |}.

Definition with_subscription (s : Subscription) (d : ScheduleOnDirective)
    : ScheduleOnDirective :=
  {| strategyProvider := strategyProvider d; nextTemplateRef := nextTemplateRef d;
     renderParent := renderParent d; patchZone := patchZone d;
     strategyHandler := strategyHandler d; _renderObserver := _renderObserver d;
     subscription := s; templateManager := templateManager d |}.

Definition with_templateManager (m : option RxTemplateManager)
    (d : ScheduleOnDirective) : ScheduleOnDirective :=
  {| strategyProvider := strategyProvider d; nextTemplateRef := nextTemplateRef d;
     renderParent := renderParent d; patchZone := patchZone d;
     strategyHandler := strategyHandler d; _renderObserver := _renderObserver d;
     subscription := subscription d; templateManager := m |}.

(** [set strategy(strategyName)] *)
Definition set_strategy (i : StrategyInput) (d : ScheduleOnDirective)
    : ScheduleOnDirective :=
  with_strategyHandler (StrategyHandler_next i (strategyHandler d)) d.

(** [set renderCallback(callback)] *)
Definition set_renderCallback (callback : option NextObserver)
    (d : ScheduleOnDirective) : ScheduleOnDirective :=
  with_renderObserver callback d.

(** What the directive does to the outside world. *)
Inductive Effect : Type :=
  | RenderedNext (n : JSVal)
  | RenderObserverNext (o : NextObserver) (n : JSVal).

(** The subscriber of [ngOnInit]:
    [(n) => { this.rendered$.next(n); this._renderObserver?.next(n); }] *)
Definition onRendered (d : ScheduleOnDirective) (n : JSVal) : list Effect :=
  RenderedNext n ::
  match _renderObserver d with
  | Some o => [RenderObserverNext o n]
  | None => []
  end.

(** The subscriber applied to the events of the render stream, in order. *)
Definition rendered_subscriber (d : ScheduleOnDirective) (outs : list JSVal)
    : list Effect :=
  flat_map (onRendered d) outs.

(** The values sent through [rendered$], and the calls of an observer's
    [next], in an effect log. *)
Fixpoint rendered_output (es : list Effect) : list JSVal :=
  match es with
  | [] => []
  | RenderedNext n :: es' => n :: rendered_output es'
  | RenderObserverNext _ _ :: es' => rendered_output es'
  end.

Fixpoint observer_calls (es : list Effect) : list (NextObserver * JSVal) :=
  match es with
  | [] => []
  | RenderedNext _ :: es' => observer_calls es'
  | RenderObserverNext o n :: es' => (o, n) :: observer_calls es'
  end.

(** The argument of [render] in [ngOnInit]. *)
Definition ngOnInit_notification : RxNotification :=
  {| value := JSBool true; hasValue := true; kind := Next;
     error := JSBool false; complete := false |}.

Section Directive.

Variable RxBaseTemplateNames : gmap string string.
Variable contextOf : RxNotification → JSObject.

(** The manager that [_createTemplateManager()] builds: created from the
    configuration object, then [addTemplateRef] of the one template. The
    manager reads the current strategy name from [strategyHandler.values$];
    the model keeps that cell in the directive. *)
Definition build_templateManager (d : ScheduleOnDirective) : RxTemplateManager :=
  let m :=
    createTemplateManager
      {| cfg_createViewContext := createViewContext;
         cfg_updateViewContext := updateViewContext;
         cfg_parent := renderParent d;
         cfg_patchZone := patchZone d;
         cfg_defaultStrategyName := primaryStrategy (strategyProvider d);
         cfg_notificationToTemplateName :=
           notificationToTemplateName RxBaseTemplateNames |} in
  match RxScheduleOnTemplateNames RxBaseTemplateNames !! "next" with
  | Some name => addTemplateRef name (nextTemplateRef d) m
  | None => m
  end.

(** [_createTemplateManager()] *)
Definition _createTemplateManager (d : ScheduleOnDirective)
    : ScheduleOnDirective :=
  with_templateManager (Some (build_templateManager d)) d.

(** [ngOnChanges(changes)] *)
Definition ngOnChanges (d : ScheduleOnDirective) : ScheduleOnDirective :=
  match templateManager d with
  | None => _createTemplateManager d
  | Some _ => d
  end.

(** [ngOnInit()]: renders [of({...})], subscribes [onRendered] and adds the
    inner subscription to [subscription]. [None] is an exception: the
    manager is [undefined], or a callback threw. *)
Definition ngOnInit (d : ScheduleOnDirective) (h : Heap)
    : option (ScheduleOnDirective * Heap) :=
  m ← templateManager d;
  '(m', h') ← manager_render contextOf (of_ ngOnInit_notification) m h;
  let '(s', ran) := Subscription_add RenderSubscription (subscription d) in
  let m'' := if decide (RenderSubscription ∈ ran) then manager_teardown m' else m' in
  Some (with_subscription s' (with_templateManager (Some m'') d), h').

(** The strategy runs the scheduled work of this anchor; a commit that
    executes reaches the subscriber of [ngOnInit]. *)
Definition strategyFires (d : ScheduleOnDirective)
    : ScheduleOnDirective * list Effect :=
  match templateManager d with
  | None => (d, [])
  | Some m =>
      let '(c, out) := commitFires (coordinator m) in
      (with_templateManager (Some (with_coordinator c m)) d,
       rendered_subscriber d out)
  end.

End Directive.

(** [ngOnDestroy()]; the second component lists the teardowns that ran. *)
Definition ngOnDestroy (d : ScheduleOnDirective)
    : ScheduleOnDirective * list Teardown :=
  let '(s', ran) := Subscription_unsubscribe (subscription d) in
  let m' := if decide (RenderSubscription ∈ ran)
            then manager_teardown <$> templateManager d
            else templateManager d in
  (with_subscription s' (with_templateManager m' d), ran).

(** The notifications that have reached the template manager once a
    directive without a manager has gone through [ngOnChanges] and
    [ngOnInit]. *)
Definition received_after_init (RxBaseTemplateNames : gmap string string)
    (contextOf : RxNotification → JSObject) (d : ScheduleOnDirective) (h : Heap)
    : list RxNotification :=
  match ngOnInit contextOf (ngOnChanges RxBaseTemplateNames d) h with
  | Some (d', _) =>
      match templateManager d' with
      | Some m => received m
      | None => []
      end
  | None => []
  end.

(** Exactly one Suspense notification, produced before anything else: the
    stream opens with a Suspense notification and has no other one. *)
Definition suspense_once_first (ns : list RxNotification) : bool :=
  match ns with
  | n :: rest =>
      is_kind Suspense n && forallb (λ n', negb (is_kind Suspense n')) rest
  | [] => false
  end.

Definition is_notify (ev : ManagerEvent) : bool :=
  match ev with
  | Notify _ => true
  | CommitFires => false
  end.

(** The notifications in a trace of the anchor, in order. *)
Fixpoint notifications (tr : list ManagerEvent) : list RxNotification :=
  match tr with
  | [] => []
  | Notify n :: tr' => n :: notifications tr'
  | CommitFires :: tr' => notifications tr'
  end.

(** What the context object of the anchor's one view must hold after the
    notifications [ns], the first of which created the view: the context
    built by the factory for the first value, patched in turn with the
    record of every later notification. *)
Definition patch_context (contextOf : RxNotification → JSObject)
    (o : JSObject) (n : RxNotification) : JSObject :=
  contextOf n ∪ o.

Definition view_context_after (contextOf : RxNotification → JSObject)
    (ns : list RxNotification) : option JSObject :=
  match ns with
  | [] => None
  | n :: ns' =>
      Some (foldl (patch_context contextOf) (viewContextLiteral (value n)) ns')
  end.

(** ** Invariants of the anchor *)

(** The view container holds exactly the active view, which is a view of
    the shared template whose context object is allocated. *)
Definition view_state_ok (m : RxTemplateManager) (h : Heap) : Prop :=
  match activeView m with
  | None => viewContainer m = [] ∧ viewsCreated m = 0
  | Some av =>
      templateName av = "nextTpl" ∧ viewContainer m = [viewRef av]
      ∧ viewsCreated m = 1 ∧ is_Some (h !! context (viewRef av))
  end.

(** Every commit request has executed, was discarded, or is pending. *)
Definition coordinator_ok (c : RenderCoordinator) : Prop :=
  requested c = executed c + discarded c + pending_count c.

Definition manager_inv (RxBaseTemplateNames : gmap string string)
    (m : RxTemplateManager) (h : Heap) : Prop :=
  cfg_createViewContext (config m) = createViewContext
  ∧ cfg_updateViewContext (config m) = updateViewContext
  ∧ cfg_notificationToTemplateName (config m)
    = notificationToTemplateName RxBaseTemplateNames
  ∧ is_Some (templates m !! "nextTpl")
  ∧ viewsDestroyed m = 0
  ∧ reported m = []
  ∧ view_state_ok m h
  ∧ coordinator_ok (coordinator m).

(** ** The strategy input over time *)

Inductive StrategyEvent : Type :=
  | Assign (i : StrategyInput)
  | SourceEmits (src : nat) (name : JSVal).

Definition strategy_step (d : ScheduleOnDirective) (ev : StrategyEvent)
    : ScheduleOnDirective :=
  match ev with
  | Assign i => set_strategy i d
  | SourceEmits src name =>
      with_strategyHandler (StrategyHandler_emit src name (strategyHandler d)) d
  end.

Definition strategy_run (d : ScheduleOnDirective) (tr : list StrategyEvent)
    : ScheduleOnDirective :=
  foldl strategy_step d tr.

(** The names supplied by a history of the input, oldest first: the static
    values assigned, and the values emitted by dynamic sources that had been
    assigned before ([seen]). *)
Fixpoint supplied_names (seen : gset nat) (tr : list StrategyEvent) : list JSVal :=
  match tr with
  | [] => []
  | Assign (StaticName name) :: tr' => name :: supplied_names seen tr'
  | Assign (DynamicSource src) :: tr' => supplied_names ({[src]} ∪ seen) tr'
  | SourceEmits src name :: tr' =>
      if decide (src ∈ seen) then name :: supplied_names seen tr'
      else supplied_names seen tr'
  end.

(** ** The demo application's ['instant'] strategy *)

(** Callbacks act on a world; every call is counted. *)
Record World (W : Type) : Type := mkWorld {
  world_state : W;
  work_calls : nat;
}.
Arguments mkWorld {W} _ _.
Arguments world_state {W} _.
Arguments work_calls {W} _.

(** Computations with effects on a state. *)
Definition Eff (S A : Type) : Type := S → A * S.

#[global] Instance Eff_ret (S : Type) : MRet (Eff S) := λ A a s, (a, s).
#[global] Instance Eff_bind (S : Type) : MBind (Eff S) :=
  λ A B f c s, let '(a, s') := c s in f a s'.

(** [work()]: calling a callback. *)
Definition invoke {W : Type} (work : W → W) : Eff (World W) unit :=
  λ w, (tt, {| world_state := work (world_state w);
               work_calls := S (work_calls w) |}).

(** [behavior: (work) => (o$) => { work(); return o$; }] *)
Definition instant_behavior {W O : Type} (work : W → W) (o : O) : Eff (World W) O :=
  invoke work ≫= λ _, mret o.

Record CustomStrategy (C W O : Type) : Type := mkStrategy {
  name : string;
  work : C → W → W;
  behavior : (W → W) → O → Eff (World W) O;
}.
Arguments mkStrategy {C W O} _ _ _.
Arguments name {C W O} _.
Arguments work {C W O} _.
Arguments behavior {C W O} _.

(** [customStrategies.instant] of the application's
    [RX_RENDER_STRATEGIES_CONFIG]; [detectChanges] is the host's change
    detection on a [ChangeDetectorRef]. *)
Definition instant {C W O : Type} (detectChanges : C → W → W)
    : CustomStrategy C W O :=
  {| name := "instant";
     work := λ cdRef, detectChanges cdRef;
     behavior := instant_behavior |}.

(** ** Concrete inputs *)

(** The provider as the demo application configures it. *)
Definition demo_provider : RxStrategyProvider :=
  {| primaryStrategy := "normal"; config_patchZone := true |}.

Definition demo_directive : ScheduleOnDirective :=
  set_renderCallback (Some 5)
    (set_strategy (StaticName (JSStr "instant"))
       (new_ScheduleOnDirective demo_provider 0)).

Definition demo_contextOf (n : RxNotification) : JSObject :=
  <["$implicit" := value n]> (<["scheduleOn" := value n]> ∅).

Definition demo_next (z : Z) : RxNotification :=
  {| value := JSNum z; hasValue := true; kind := Next;
     error := JSBool false; complete := false |}.

Definition demo_trace : list ManagerEvent :=
  [Notify (demo_next 1); Notify (demo_next 2); CommitFires; Notify (demo_next 3)].

Definition demo_heap : Heap :=
  <[2%positive := <["$implicit" := JSNum 9]> (<["$error" := JSBool true]> ∅)]>
  (<[1%positive := viewContextLiteral (JSNum 1)]> ∅).

Definition demo_view : EmbeddedViewRef :=
  {| view_id := 0; view_template := 0; context := 1%positive |}.

(** ** Further inputs and lifecycle of the directive *)

(** [@Input('scheduleOnParent') renderParent]: a plain field assignment. *)
Definition set_renderParent (b : bool) (d : ScheduleOnDirective)
    : ScheduleOnDirective :=
  {| strategyProvider := strategyProvider d; nextTemplateRef := nextTemplateRef d;
     renderParent := b; patchZone := patchZone d;
     strategyHandler := strategyHandler d; _renderObserver := _renderObserver d;
     subscription := subscription d; templateManager := templateManager d |}.

(** [@Input('scheduleOnPatchZone') patchZone]: a plain field assignment. *)
Definition set_patchZone (b : bool) (d : ScheduleOnDirective)
    : ScheduleOnDirective :=
  {| strategyProvider := strategyProvider d; nextTemplateRef := nextTemplateRef d;
     renderParent := renderParent d; patchZone := b;
     strategyHandler := strategyHandler d; _renderObserver := _renderObserver d;
     subscription := subscription d; templateManager := templateManager d |}.



(** A pipeline stage applied [n] times in a row, the effects in sequence. *)
Fixpoint apply_times {S O : Type} (n : nat) (stage : O → Eff S O) (o : O)
    : Eff S O :=
  match n with
  | 0 => mret o
  | S n' => stage o ≫= apply_times n' stage
  end.

(** ** Observables over time (rxjs) *)

Definition Time := nat.

(** An observable as a subscriber sees it: given the instant of the
    subscription, the events delivered from then on, in order, each with the
    instant of its delivery. Events stamped with the instant of the
    subscription are delivered during [subscribe]. This covers hot and
    replaying sources, whose deliveries depend on when one subscribes. *)
Definition TimedObservable (A : Type) : Type := Time → list (Time * ObsEvent A).

(** rxjs [take(count)], outside the sources: the first [count] values, then
    completion at the instant of the last one; an earlier error or
    completion passes through and ends the stream. [take(0)] completes on
    subscription. *)
Fixpoint take_events {A : Type} (count : nat) (es : list (Time * ObsEvent A))
    : list (Time * ObsEvent A) :=
  match es with
  | [] => []
  | (t, OnNext a) :: es' =>
      match count with
      | 0 => []
      | 1 => [(t, OnNext a); (t, OnComplete)]
      | S k => (t, OnNext a) :: take_events k es'
      end
  | (t, e) :: _ => [(t, e)]
  end.

Definition rx_take {A : Type} (count : nat) (o : TimedObservable A)
    : TimedObservable A :=
  λ t0, match count with
        | 0 => [(t0, OnComplete)]
        | _ => take_events count (o t0)
        end.

(** rxjs [filter(predicate)], outside the sources: values that fail the
    predicate are dropped, an error or completion passes through and ends
    the stream. *)
Fixpoint filter_events {A : Type} (p : A → bool) (es : list (Time * ObsEvent A))
    : list (Time * ObsEvent A) :=
  match es with
  | [] => []
  | (t, OnNext a) :: es' =>
      if p a then (t, OnNext a) :: filter_events p es' else filter_events p es'
  | (t, e) :: _ => [(t, e)]
  end.

Definition rx_filter {A : Type} (p : A → bool) (o : TimedObservable A)
    : TimedObservable A :=
  λ t0, filter_events p (o t0).

(** How far an inner subscription of [switchMap] got. *)
Inductive InnerState (B : Type) : Type :=
  | InnerActive (rest : list (Time * ObsEvent B))
  | InnerDone
  | InnerFailed.
Arguments InnerActive {B} rest.
Arguments InnerDone {B}.
Arguments InnerFailed {B}.

(** The values an inner subscription delivers at the instants selected by
    [now], and where that leaves it. *)
Fixpoint run_inner {B : Type} (now : Time → bool) (es : list (Time * ObsEvent B))
    : list (Time * ObsEvent B) * InnerState B :=
  match es with
  | [] => ([], InnerActive [])
  | (t, e) :: es' =>
      if now t then
        match e with
        | OnNext b =>
            let '(out, st) := run_inner now es' in ((t, OnNext b) :: out, st)
        | OnError x => ([(t, OnError x)], InnerFailed)
        | OnComplete => ([], InnerDone)
        end
      else ([], InnerActive ((t, e) :: es'))
  end.

(** Once the outer observable is complete, the result is what is left of
    the inner one, completion included. *)
Fixpoint finish_inner {B : Type} (es : list (Time * ObsEvent B))
    : list (Time * ObsEvent B) :=
  match es with
  | [] => []
  | (t, OnNext b) :: es' => (t, OnNext b) :: finish_inner es'
  | (t, e) :: _ => [(t, e)]
  end.

(** rxjs [switchMap(project)], outside the sources. For every outer value
    the previous inner subscription is dropped and [project(value)] is
    subscribed at that instant; what an inner observable delivers during its
    subscription comes before the next outer event, and of two events of one
    instant the outer one comes first. An error of either side ends the
    result; it completes when the outer observable and the last inner one
    are complete. *)
Fixpoint switch_events {A B : Type} (project : A → TimedObservable B)
    (inner : option (list (Time * ObsEvent B)))
    (outer : list (Time * ObsEvent A)) : list (Time * ObsEvent B) :=
  match outer with
  | [] =>
      match inner with
      | None => []
      | Some es => (run_inner (λ _, true) es).1
      end
  | (t, ev) :: outer' =>
      let '(out, st) :=
        match inner with
        | None => ([], InnerDone)
        | Some es => run_inner (λ t', (t' <? t)%nat) es
        end in
      match st with
      | InnerFailed => out
      | _ =>
          match ev with
          | OnNext a =>
              let '(out2, st2) := run_inner (λ t', (t' <=? t)%nat) (project a t) in
              match st2 with
              | InnerFailed => out ++ out2
              | InnerDone => out ++ out2 ++ switch_events project None outer'
              | InnerActive rest =>
                  out ++ out2 ++ switch_events project (Some rest) outer'
              end
          | OnError x => out ++ [(t, OnError x)]
          | OnComplete =>
              match st with
              | InnerActive rest => out ++ finish_inner rest
              | _ => out ++ [(t, OnComplete)]
              end
          end
      end
  end.

Definition rx_switchMap {A B : Type} (project : A → TimedObservable B)
    (o : TimedObservable A) : TimedObservable B :=
  λ t0, switch_events project None (o t0).

(** Is a subscription made at [t0], and unsubscribed at [unsubscribed] if
    ever, still served at instant [t]? What is delivered during [subscribe]
    itself is served in any case. *)
Definition still_subscribed (t0 : Time) (unsubscribed : option Time) (t : Time)
    : bool :=
  match unsubscribed with
  | None => true
  | Some t1 => ((t =? t0) || (t <? t1))%nat
  end.

(** ** RxLetInstant *)

(** The observable subscribed in [RxLetInstant.ngOnInit]:
    [strategyHandler.values$.pipe(take(1), filter((strategy) => strategy ===
    'instant'), switchMap(() => this.letDir.values$.pipe(take(1))))]. The
    two streams of the [LetDirective] are parameters. *)
Definition RxLetInstant_pipeline (strategyValues letValues : TimedObservable JSVal)
    : TimedObservable JSVal :=
  rx_switchMap (λ _, rx_take 1 letValues)
    (rx_filter (λ strategy, bool_decide (strategy = JSStr "instant"))
       (rx_take 1 strategyValues)).

(** [this.letDir.strategy = 'normal'], at instant [t]. *)
Definition assign_normal (t : Time) : Time * StrategyInput :=
  (t, StaticName (JSStr "normal")).

(** [RxLetInstant]: [ngOnInit] at instant [t0] subscribes the pipeline with
    the callback [() => { this.letDir.strategy = 'normal'; }] and adds the
    subscription to [sub]; [ngOnDestroy], at instant [destroyed] if ever,
    unsubscribes [sub]. The result lists the assignments to
    [letDir.strategy] the directive makes, with their instants. *)
Definition RxLetInstant_assignments (t0 : Time) (destroyed : option Time)
    (strategyValues letValues : TimedObservable JSVal)
    : list (Time * StrategyInput) :=
  flat_map
    (λ te : Time * ObsEvent JSVal,
       match te.2 with
       | OnNext _ =>
           if still_subscribed t0 destroyed te.1
           then [assign_normal te.1]
           else []
       | _ => []
       end)
    (RxLetInstant_pipeline strategyValues letValues t0).

(** A strategy stream that replays ['normal'] to a new subscriber and
    switches to ['instant'] one instant later, and a value stream that emits
    one instant after the subscription. *)
Definition demo_strategyValues : TimedObservable JSVal :=
  λ t0, [(t0, OnNext (JSStr "normal")); (S t0, OnNext (JSStr "instant"))].

Definition demo_letValues : TimedObservable JSVal :=
  λ t0, [(S t0, OnNext (JSNum 1)); (S (S t0), OnNext (JSNum 2))].


(** * Properties *)

(** ** Object keys and property copies *)

Lemma elem_of_object_keys (o : JSObject) (k : string) :
  k ∈ object_keys o ↔ is_Some (o !! k).
Proof.
  unfold object_keys. rewrite list_elem_of_fmap. split.
  - intros [[k' x] [-> Hin]]. apply elem_of_map_to_list in Hin. by exists x.
  - intros [x Hx]. exists (k, x). split; [done|]. by apply elem_of_map_to_list.
Qed.

Lemma js_get_Some (o : JSObject) (k : string) :
  is_Some (o !! k) → Some (js_get o k) = o !! k.
Proof. intros [x Hx]. unfold js_get. by rewrite Hx. Qed.

Lemma js_get_insert_self (o : JSObject) (k k' : string) :
  js_get (<[k := js_get o k]> o) k' = js_get o k'.
Proof.
  unfold js_get at 1 3. destruct (decide (k = k')) as [->|Hne].
  - by rewrite lookup_insert_eq.
  - by rewrite lookup_insert_ne.
Qed.

(** The copy loop, for any list of keys, with or without aliasing between
    the two objects. *)
Lemma forEach_assign_spec (target source : loc) (keys : list string) :
  ∀ (h : Heap) (src tgt : JSObject),
    h !! source = Some src → h !! target = Some tgt →
    ∃ (h' : Heap) (src' tgt' : JSObject),
      forEach_assign target source keys h = Some h'
      ∧ h' !! source = Some src' ∧ h' !! target = Some tgt'
      ∧ (∀ k, js_get src' k = js_get src k)
      ∧ (∀ k, k ∈ keys → tgt' !! k = Some (js_get src k))
      ∧ (∀ k, k ∉ keys → tgt' !! k = tgt !! k)
      ∧ (∀ l, l ≠ target → h' !! l = h !! l)
      ∧ dom h' = dom h.
Proof.
  induction keys as [|k keys IH]; intros h src tgt Hs Ht.
  - exists h, src, tgt. cbn. repeat split; try done. intros k Hk. by inversion Hk.
  - cbn [forEach_assign]. unfold assign_prop at 1. rewrite Hs, Ht. cbn.
    set (tgt1 := <[k := js_get src k]> tgt).
    set (h1 := <[target := tgt1]> h).
    assert (∃ src1, h1 !! source = Some src1 ∧ ∀ k', js_get src1 k' = js_get src k')
      as (src1 & Hs1 & Hget1).
    { destruct (decide (source = target)) as [Heq|Hne].
      - exists tgt1. subst source. split; [apply lookup_insert_eq|].
        assert (src = tgt) as -> by congruence.
        intros k'. apply js_get_insert_self.
      - exists src. split; [|done]. subst h1. by rewrite lookup_insert_ne. }
    assert (h1 !! target = Some tgt1) as Ht1 by apply lookup_insert_eq.
    destruct (IH h1 src1 tgt1 Hs1 Ht1)
      as (h' & src' & tgt' & Hrun & Hs' & Ht' & Hget & Hin & Hout & Hfr & Hdom).
    exists h', src', tgt'. split; [done|]. split; [done|]. split; [done|].
    split; [|split; [|split; [|split]]].
    + intros k'. by rewrite Hget, Hget1.
    + intros k' Hk'. destruct (decide (k' ∈ keys)) as [Hmem|Hnm].
      * rewrite (Hin _ Hmem). by rewrite Hget1.
      * apply elem_of_cons in Hk' as [->|?]; [|done].
        rewrite (Hout _ Hnm). apply lookup_insert_eq.
    + intros k' Hk'. apply not_elem_of_cons in Hk' as [Hne Hnm].
      rewrite (Hout _ Hnm). subst tgt1. by rewrite lookup_insert_ne.
    + intros l Hl. rewrite (Hfr _ Hl). subst h1. by rewrite lookup_insert_ne.
    + rewrite Hdom. subst h1. apply dom_insert_lookup_L. by exists tgt.
Qed.

(** ** The template-name resolver *)

Lemma RxScheduleOnTemplateNames_next (base : gmap string string) :
  RxScheduleOnTemplateNames base !! "next" = Some "nextTpl".
Proof. apply lookup_insert_eq. Qed.

(** C4. Template name resolution depends on nothing: whatever the
    notification kind, the notification value and the base table of template
    names, the resolver answers the one shared template name ['nextTpl']. *)
Theorem notificationToTemplateName_constant :
  ∀ (base : gmap string string) (k : RxNotificationKind) (v : JSVal),
    notificationToTemplateName base k v = Some "nextTpl".
Proof.
  intros base k v. destruct k; apply RxScheduleOnTemplateNames_next.
Qed.

(** ** The view-context callbacks *)

(** C8. [createViewContext v] allocates a new object (removing it gives the
    old heap back), and the new context has [$implicit = v], [scheduleOn = v]
    and the three flags [$error], [$complete], [$suspense] all [false], and
    no other property. *)
Theorem createViewContext_fresh_flags_false :
  ∀ (v : JSVal) (h : Heap),
    let l := (createViewContext v h).1 in
    let h' := (createViewContext v h).2 in
    h !! l = None
    ∧ delete l h' = h
    ∧ ∃ o : JSObject, h' !! l = Some o
        ∧ o !! "$implicit" = Some v
        ∧ o !! "scheduleOn" = Some v
        ∧ o !! "$error" = Some (JSBool false)
        ∧ o !! "$complete" = Some (JSBool false)
        ∧ o !! "$suspense" = Some (JSBool false)
        ∧ dom o = ({["$implicit"; "scheduleOn"; "$error"; "$complete";
                     "$suspense"]} : gset string).
Proof.
  intros v h. cbn. split; [|split].
  - apply not_elem_of_dom. apply is_fresh.
  - apply delete_insert_id. apply not_elem_of_dom. apply is_fresh.
  - exists (viewContextLiteral v). split; [apply lookup_insert_eq|].
    unfold viewContextLiteral.
    split_and!; [by simplify_map_eq..|].
    rewrite !dom_insert_L, dom_empty_L. set_solver.
Qed.

(** C7. [updateViewContext] patches the view's context object in place:
    every key of the supplied context is copied into [view.context], keys
    the supplied context does not have keep their old state, the view still
    refers to the same object, no object is created and no other object is
    touched. This holds also when the supplied context is the view's own
    context object. *)
Theorem updateViewContext_patches_in_place :
  ∀ (v : JSVal) (view : EmbeddedViewRef) (ctx : loc) (h : Heap)
    (o vo : JSObject),
    h !! ctx = Some o →
    h !! context view = Some vo →
    ∃ (h' : Heap) (o' vo' : JSObject),
      updateViewContext v view ctx h = Some h'
      ∧ h' !! ctx = Some o'
      ∧ h' !! context view = Some vo'
      ∧ (∀ k, is_Some (o !! k) → vo' !! k = o !! k ∧ vo' !! k = o' !! k)
      ∧ (∀ k, o !! k = None → vo' !! k = vo !! k)
      ∧ (∀ l, l ≠ context view → h' !! l = h !! l)
      ∧ dom h' = dom h.
Proof.
  intros v view ctx h o vo Ho Hvo. unfold updateViewContext. rewrite Ho. cbn.
  destruct (forEach_assign_spec (context view) ctx (object_keys o) h o vo Ho Hvo)
    as (h' & o' & vo' & Hrun & Ho' & Hvo' & Hget & Hin & Hout & Hfr & Hdom).
  exists h', o', vo'. repeat split; try done.
  - rewrite Hin by by apply elem_of_object_keys. by apply js_get_Some.
  - rewrite Hin by by apply elem_of_object_keys.
    destruct (decide (ctx = context view)) as [Heq|Hne].
    + rewrite Heq in Ho'. assert (o' = vo') as -> by congruence.
      symmetry. apply Hin. by apply elem_of_object_keys.
    + rewrite (Hfr _ Hne) in Ho'. assert (o' = o) as -> by congruence.
      by apply js_get_Some.
  - intros k Hk. apply Hout. rewrite elem_of_object_keys, Hk.
    by intros [? ?].
Qed.

Example createViewContext_ex :
  (createViewContext (JSNum 7) ∅).2 !! (createViewContext (JSNum 7) ∅).1
  = Some (viewContextLiteral (JSNum 7)).
Proof. vm_compute. reflexivity. Qed.

(** ** Teardown *)

(** C9. Tearing the directive down twice is the same as tearing it down
    once: the second [ngOnDestroy] runs no teardown and returns the state
    unchanged. [ngOnDestroy] is a total function, it has no failing case. *)
Theorem ngOnDestroy_idempotent :
  ∀ d : ScheduleOnDirective,
    ngOnDestroy (ngOnDestroy d).1 = ((ngOnDestroy d).1, []).
Proof.
  intros [sp tpl rp pz sh ob [cl tds] tm]. unfold ngOnDestroy. cbn.
  unfold Subscription_unsubscribe. cbn. destruct cl; cbn.
  - reflexivity.
  - destruct (decide (RenderSubscription ∈ tds)); reflexivity.
Qed.

(** ** The ['instant'] strategy *)

(** C10. [behavior(work)(o$)] of the ['instant'] strategy returns [o$]
    itself, and the world it leaves is the one produced by a single call of
    [work]: the call counter has gone up by exactly one. *)
Theorem instant_behavior_calls_work_once :
  ∀ (C W O : Type) (detectChanges : C → W → W) (work : W → W) (o : O)
    (w : World W),
    behavior (instant detectChanges) work o w
    = (o, {| world_state := work (world_state w);
             work_calls := S (work_calls w) |}).
Proof. intros C W O detectChanges work o w. reflexivity. Qed.

(** ** The strategy selection stream *)

Lemma last_supplied_cons (c : option JSVal) (x : JSVal) (l : list JSVal) :
  from_option Some c (last (x :: l)) = from_option Some (Some x) (last l).
Proof.
  destruct l as [|y l]; [done|]. cbn [last].
  destruct (last (y :: l)) eqn:E; [done|]. by apply last_None in E.
Qed.

Lemma strategy_run_current (tr : list StrategyEvent) :
  ∀ d : ScheduleOnDirective,
    values_subscribe (strategyHandler (strategy_run d tr))
    = from_option Some (current (strategyHandler d))
        (last (supplied_names (sources (strategyHandler d)) tr)).
Proof.
  unfold values_subscribe, strategy_run.
  induction tr as [|ev tr IH]; intros d; [done|].
  cbn [foldl]. rewrite IH. destruct ev as [[name|src]|src name]; cbn.
  - by rewrite last_supplied_cons.
  - done.
  - unfold StrategyHandler_emit. destruct (decide (src ∈ sources (strategyHandler d))).
    + cbn. by rewrite last_supplied_cons.
    + done.
Qed.

(** C5. The strategy stream replays the latest name: after any history of
    assignments to the [strategy] input and of emissions of the dynamic
    sources assigned, a new subscriber of [values$] is handed the most
    recently supplied name (nothing if none was supplied yet); and the next
    static name assigned, or the next value of an assigned dynamic source,
    becomes what subscribers are handed from then on. *)
Theorem strategy_stream_replays_latest :
  ∀ (sp : RxStrategyProvider) (tpl : TemplateRef) (tr : list StrategyEvent),
    let d := strategy_run (new_ScheduleOnDirective sp tpl) tr in
    values_subscribe (strategyHandler d) = last (supplied_names ∅ tr)
    ∧ (∀ name,
          values_subscribe
            (strategyHandler (strategy_run d [Assign (StaticName name)]))
          = Some name)
    ∧ (∀ src name,
          values_subscribe
            (strategyHandler
               (strategy_run d [Assign (DynamicSource src); SourceEmits src name]))
          = Some name).
Proof.
  intros sp tpl tr d. split; [|split].
  - subst d. rewrite strategy_run_current. cbn.
    by destruct (last (supplied_names ∅ tr)).
  - intros name. reflexivity.
  - intros src name. cbn. unfold StrategyHandler_emit. cbn.
    rewrite decide_True; [done|set_solver].
Qed.

(** ** The anchor's invariant *)

Lemma updateViewContext_succeeds (v : JSVal) (view : EmbeddedViewRef) (ctx : loc)
    (h : Heap) :
  is_Some (h !! ctx) → is_Some (h !! context view) →
  ∃ h' : Heap, updateViewContext v view ctx h = Some h' ∧ dom h' = dom h.
Proof.
  intros [o Ho] [vo Hvo]. unfold updateViewContext. rewrite Ho. cbn.
  destruct (forEach_assign_spec (context view) ctx (object_keys o) h o vo Ho Hvo)
    as (h' & _ & _ & Hrun & _ & _ & _ & _ & _ & _ & Hdom).
  by exists h'.
Qed.

Lemma scheduleCommit_ok (v : JSVal) (c : RenderCoordinator) :
  coordinator_ok c → coordinator_ok (scheduleCommit v c).
Proof. unfold coordinator_ok, scheduleCommit, pending_count. cbn. lia. Qed.

Lemma commitFires_ok (c : RenderCoordinator) :
  coordinator_ok c →
  coordinator_ok (commitFires c).1
  ∧ executed (commitFires c).1 = executed c + length (commitFires c).2
  ∧ requested (commitFires c).1 = requested c.
Proof.
  unfold coordinator_ok, commitFires, pending_count.
  destruct (pending c) eqn:E; cbn; rewrite ?E; lia.
Qed.

Lemma build_templateManager_inv (base : gmap string string)
    (d : ScheduleOnDirective) (h : Heap) :
  manager_inv base (build_templateManager base d) h
  ∧ activeView (build_templateManager base d) = None
  ∧ received (build_templateManager base d) = []
  ∧ coordinator (build_templateManager base d) = new_RenderCoordinator.
Proof.
  unfold build_templateManager. rewrite RxScheduleOnTemplateNames_next.
  unfold manager_inv, view_state_ok, coordinator_ok. cbn.
  rewrite lookup_insert_eq. split_and!; by eauto.
Qed.

Lemma updateViewContext_union (v : JSVal) (view : EmbeddedViewRef) (ctx : loc)
    (h : Heap) (o vo : JSObject) :
  h !! ctx = Some o →
  h !! context view = Some vo →
  updateViewContext v view ctx h = Some (<[context view := o ∪ vo]> h).
Proof.
  intros Ho Hvo. unfold updateViewContext. rewrite Ho. cbn.
  destruct (forEach_assign_spec (context view) ctx (object_keys o) h o vo Ho Hvo)
    as (h' & o' & vo' & -> & _ & Hvo' & _ & Hin & Hout & Hfr & _).
  f_equal. apply map_eq. intros l.
  destruct (decide (l = context view)) as [->|Hne].
  - rewrite lookup_insert_eq, Hvo'. f_equal. apply map_eq. intros k.
    destruct (o !! k) as [x|] eqn:Hk.
    + rewrite (lookup_union_Some_l _ _ _ _ Hk).
      rewrite Hin by (apply elem_of_object_keys; eauto).
      unfold js_get. by rewrite Hk.
    + rewrite lookup_union_r by done. apply Hout.
      rewrite elem_of_object_keys, Hk. by intros [? ?].
  - rewrite lookup_insert_ne by done. by apply Hfr.
Qed.

Section Anchor.

Variable base : gmap string string.
Variable contextOf : RxNotification → JSObject.

Lemma manager_notify_inv (n : RxNotification) (m : RxTemplateManager) (h : Heap) :
  manager_inv base m h →
  ∃ (m' : RxTemplateManager) (h' : Heap),
    manager_notify contextOf n m h = Some (m', h')
    ∧ manager_inv base m' h'
    ∧ is_Some (activeView m')
    ∧ (∀ av, activeView m = Some av → activeView m' = Some av)
    ∧ received m' = received m ++ [n]
    ∧ coordinator m' = scheduleCommit (value n) (coordinator m).
Proof.
  intros (Hc & Hu & Hr & [tpl Htpl] & Hd & Hrep & Hv & Hco).
  assert (notificationToTemplateName base (kind n) (value n) = Some "nextTpl")
    as Hres by (destruct (kind n); apply RxScheduleOnTemplateNames_next).
  unfold manager_notify. cbn. rewrite Hr, Hres.
  unfold active_named, view_state_ok in *. cbn.
  destruct (activeView m) as [av|] eqn:Hav.
  - destruct Hv as (Hname & Hcont & Hcr & Hctx).
    rewrite decide_True by done. rewrite Hu.
    assert (fresh (dom h) ≠ context (viewRef av)) as Hne.
    { intros Heq. apply (is_fresh (dom h)). rewrite Heq. by apply elem_of_dom. }
    destruct (updateViewContext_succeeds (value n) (viewRef av)
                (fresh (dom h)) (<[fresh (dom h) := contextOf n]> h))
      as (h2 & Hupd & Hdom).
    { by rewrite lookup_insert_eq. }
    { by rewrite lookup_insert_ne. }
    rewrite Hupd. cbn. eexists _, h2. split; [reflexivity|].
    unfold manager_inv, view_state_ok. cbn. rewrite Hav.
    split_and!; try done; try (by eauto); try (by apply scheduleCommit_ok).
    apply elem_of_dom. rewrite Hdom, dom_insert_L.
    apply elem_of_union_r. by apply elem_of_dom.
  - destruct Hv as (Hcont & Hcr). rewrite Htpl, Hc. cbn.
    unfold disposeActiveView, insertView. cbn. rewrite Hav. cbn.
    eexists _, _. split; [reflexivity|].
    unfold manager_inv, view_state_ok. cbn.
    split_and!; try done; try (by eauto); try (by apply scheduleCommit_ok);
      try (by rewrite Hcont); try (by rewrite Hcr).
    by rewrite lookup_insert_eq.
Qed.

Lemma manager_step_inv (ev : ManagerEvent) (m : RxTemplateManager) (h : Heap) :
  manager_inv base m h →
  ∃ (m' : RxTemplateManager) (h' : Heap) (out : list JSVal),
    manager_step contextOf ev m h = Some (m', h', out)
    ∧ manager_inv base m' h'
    ∧ (is_notify ev = true → is_Some (activeView m'))
    ∧ (∀ av, activeView m = Some av → activeView m' = Some av)
    ∧ received m' = received m ++ notifications [ev]
    ∧ executed (coordinator m') = executed (coordinator m) + length out
    ∧ requested (coordinator m')
      = requested (coordinator m) + length (notifications [ev]).
Proof.
  intros Hinv. destruct ev as [n|]; cbn [manager_step].
  - destruct (manager_notify_inv n m h Hinv)
      as (m' & h' & -> & Hinv' & Hact & Hkeep & Hrec & Hco).
    exists m', h', []. cbn. rewrite Hco. cbn.
    split_and!; try done. all: lia.
  - destruct Hinv as (Hc & Hu & Hr & Htpl & Hd & Hrep & Hv & Hco).
    destruct (commitFires_ok _ Hco) as (Hco' & Hex & Hreq).
    destruct (commitFires (coordinator m)) as [c out] eqn:Hfire. cbn in *.
    eexists _, h, out. split; [reflexivity|].
    unfold manager_inv, view_state_ok. cbn.
    split_and!; try done. { by rewrite app_nil_r. } lia.
Qed.

Lemma manager_run_inv (tr : list ManagerEvent) :
  ∀ (m : RxTemplateManager) (h : Heap),
    manager_inv base m h →
    ∃ (m' : RxTemplateManager) (h' : Heap) (outs : list JSVal),
      manager_run contextOf tr m h = Some (m', h', outs)
      ∧ manager_inv base m' h'
      ∧ (existsb is_notify tr = true → is_Some (activeView m'))
      ∧ (∀ av, activeView m = Some av → activeView m' = Some av)
      ∧ received m' = received m ++ notifications tr
      ∧ executed (coordinator m') = executed (coordinator m) + length outs
      ∧ requested (coordinator m')
        = requested (coordinator m) + length (notifications tr).
Proof.
  induction tr as [|ev tr IH]; intros m h Hinv.
  - exists m, h, []. cbn. rewrite app_nil_r. split_and!; try done. all: lia.
  - destruct (manager_step_inv ev m h Hinv)
      as (m1 & h1 & o1 & Hstep & Hinv1 & Hact1 & Hkeep1 & Hrec1 & Hex1 & Hreq1).
    destruct (IH m1 h1 Hinv1)
      as (m2 & h2 & o2 & Hrun & Hinv2 & Hact2 & Hkeep2 & Hrec2 & Hex2 & Hreq2).
    exists m2, h2, (o1 ++ o2). cbn [manager_run]. rewrite Hstep. cbn.
    rewrite Hrun. cbn. split_and!; try done.
    + cbn [existsb]. intros Hex. apply orb_true_iff in Hex as [Hev|Htr].
      * destruct (Hact1 Hev) as [av Hav]. exists av. by apply Hkeep2.
      * by apply Hact2.
    + intros av Hav. by apply Hkeep2, Hkeep1.
    + rewrite Hrec2, Hrec1. destruct ev; cbn; by rewrite <- ?app_assoc.
    + rewrite Hex2, Hex1, length_app. lia.
    + rewrite Hreq2, Hreq1. destruct ev; cbn; lia.
Qed.

Lemma manager_run_app (tr1 tr2 : list ManagerEvent) :
  ∀ (m : RxTemplateManager) (h : Heap),
    manager_run contextOf (tr1 ++ tr2) m h
    = '(m1, h1, o1) ← manager_run contextOf tr1 m h;
      '(m2, h2, o2) ← manager_run contextOf tr2 m1 h1;
      Some (m2, h2, o1 ++ o2).
Proof.
  induction tr1 as [|ev tr1 IH]; intros m h.
  - cbn. destruct (manager_run contextOf tr2 m h) as [[[m2 h2] o2]|]; done.
  - cbn [app manager_run].
    destruct (manager_step contextOf ev m h) as [[[m1 h1] o1]|]; [|done].
    cbn. rewrite IH.
    destruct (manager_run contextOf tr1 m1 h1) as [[[m2 h2] o2]|]; [|done].
    cbn.
    destruct (manager_run contextOf tr2 m2 h2) as [[[m3 h3] o3]|]; [|done].
    cbn. by rewrite app_assoc.
Qed.

Lemma manager_step_context (ev : ManagerEvent) (m m' : RxTemplateManager)
    (h h' : Heap) (out : list JSVal) :
  manager_inv base m h →
  manager_step contextOf ev m h = Some (m', h', out) →
  match activeView m with
  | Some av =>
      ∀ o, h !! context (viewRef av) = Some o →
        h' !! context (viewRef av)
        = Some (foldl (patch_context contextOf) o (notifications [ev]))
  | None =>
      ∀ av', activeView m' = Some av' →
        h' !! context (viewRef av')
        = view_context_after contextOf (notifications [ev])
  end.
Proof.
  intros (Hc & Hu & Hr & [tpl Htpl] & Hd & Hrep & Hv & Hco) Hstep.
  destruct ev as [n|]; cbn [manager_step] in Hstep.
  - assert (notificationToTemplateName base (kind n) (value n) = Some "nextTpl")
      as Hres by (destruct (kind n); apply RxScheduleOnTemplateNames_next).
    unfold manager_notify in Hstep. cbn in Hstep. rewrite Hr, Hres in Hstep.
    unfold active_named, view_state_ok in *. cbn in Hstep.
    destruct (activeView m) as [av|] eqn:Hav.
    + destruct Hv as (Hname & Hcont & Hcr & Hctx).
      rewrite decide_True in Hstep by done. rewrite Hu in Hstep.
      intros o Ho.
      assert (fresh (dom h) ≠ context (viewRef av)) as Hne.
      { intros Heq. apply (is_fresh (dom h)). rewrite Heq. by apply elem_of_dom. }
      rewrite (updateViewContext_union _ _ _ _ (contextOf n) o) in Hstep.
      * cbn in Hstep. injection Hstep as <- <- <-. cbn.
        by rewrite lookup_insert_eq.
      * by rewrite lookup_insert_eq.
      * by rewrite lookup_insert_ne.
    + rewrite Htpl, Hc in Hstep. cbn in Hstep.
      unfold disposeActiveView, insertView in Hstep. cbn in Hstep.
      rewrite Hav in Hstep. cbn in Hstep. injection Hstep as <- <- <-.
      intros av' [= <-]. cbn. by rewrite lookup_insert_eq.
  - destruct (commitFires (coordinator m)) as [c o1]. cbn in Hstep.
    injection Hstep as <- <- <-. cbn.
    destruct (activeView m) as [av|]; [by intros o Ho|by intros av' ?].
Qed.

Lemma manager_run_context (tr : list ManagerEvent) :
  ∀ (m m' : RxTemplateManager) (h h' : Heap) (outs : list JSVal),
    manager_inv base m h →
    manager_run contextOf tr m h = Some (m', h', outs) →
    match activeView m with
    | Some av =>
        ∀ o, h !! context (viewRef av) = Some o →
          h' !! context (viewRef av)
          = Some (foldl (patch_context contextOf) o (notifications tr))
    | None =>
        ∀ av', activeView m' = Some av' →
          h' !! context (viewRef av')
          = view_context_after contextOf (notifications tr)
    end.
Proof.
  induction tr as [|ev tr IH]; intros m m' h h' outs Hinv Hrun.
  - cbn in Hrun. injection Hrun as <- <- <-.
    destruct (activeView m) as [av|] eqn:Hav; [by intros o Ho|].
    intros av' Hav'. congruence.
  - destruct (manager_step_inv ev m h Hinv)
      as (m1 & h1 & o1 & Hstep & Hinv1 & Hact1 & Hkeep1 & _).
    destruct (manager_run_inv tr m1 h1 Hinv1)
      as (m2 & h2 & o2 & Hrun1 & _ & _ & Hkeep2 & _).
    cbn [manager_run] in Hrun. rewrite Hstep in Hrun. cbn in Hrun.
    rewrite Hrun1 in Hrun. cbn in Hrun. injection Hrun as <- <- <-.
    pose proof (manager_step_context ev m m1 h h1 o1 Hinv Hstep) as Hctx1.
    pose proof (IH m1 m2 h1 h2 o2 Hinv1 Hrun1) as Hctx2.
    destruct (activeView m) as [av|] eqn:Hav.
    + intros o Ho. rewrite (Hkeep1 av eq_refl) in Hctx2.
      rewrite (Hctx2 _ (Hctx1 o Ho)).
      destruct ev; reflexivity.
    + destruct ev as [n|].
      * destruct (Hact1 eq_refl) as [av1 Hav1]. rewrite Hav1 in Hctx2.
        intros av' Hav'. rewrite (Hkeep2 av1 Hav1) in Hav'.
        injection Hav' as <-.
        apply Hctx2. by apply Hctx1.
      * assert (activeView m1 = None) as Hnone1.
        { cbn in Hstep. destruct (commitFires (coordinator m)) as [c oo].
          injection Hstep as <- _ _. by cbn. }
        rewrite Hnone1 in Hctx2. exact Hctx2.
Qed.

End Anchor.

(** ** One view per anchor *)

(** C3. Under the directive's single shared-template configuration, once a
    notification has arrived, however many arrive (of kind Next, or of any
    other kind) and however the strategy's commits are interleaved with
    them, exactly one embedded view is created and none is destroyed: the
    view created for the first notification is the active view ever after,
    and later notifications only patch its context, which holds the context
    built for the first value patched in turn with the record of every later
    notification. At every point of the trace the view container of the
    anchor holds at most one view, and as soon as a notification has arrived
    it is that same view, its context object patched with the notifications
    so far. *)
Theorem shared_template_single_view :
  ∀ (base : gmap string string) (contextOf : RxNotification → JSObject)
    (d : ScheduleOnDirective) (h : Heap) (tr : list ManagerEvent),
    existsb is_notify tr = true →
    ∃ (m' : RxTemplateManager) (h' : Heap) (outs : list JSVal)
      (v : EmbeddedViewRef),
      manager_run contextOf tr (build_templateManager base d) h
      = Some (m', h', outs)
      ∧ viewsCreated m' = 1
      ∧ viewsDestroyed m' = 0
      ∧ viewContainer m' = [v]
      ∧ activeView m' = Some {| templateName := "nextTpl"; viewRef := v |}
      ∧ is_Some (h' !! context v)
      ∧ h' !! context v = view_context_after contextOf (notifications tr)
      ∧ ∀ tr1 tr2 : list ManagerEvent, tr = tr1 ++ tr2 →
          ∃ (m1 : RxTemplateManager) (h1 : Heap) (o1 : list JSVal),
            manager_run contextOf tr1 (build_templateManager base d) h
            = Some (m1, h1, o1)
            ∧ (length (viewContainer m1) ≤ 1)%nat
            ∧ (viewsCreated m1 ≤ 1)%nat
            ∧ (existsb is_notify tr1 = true →
               viewContainer m1 = [v]
               ∧ h1 !! context v
                 = view_context_after contextOf (notifications tr1)).
Proof.
  intros base contextOf d h tr Hsome.
  destruct (build_templateManager_inv base d h) as (Hinv0 & Hact0 & _ & _).
  destruct (manager_run_inv base contextOf tr _ h Hinv0)
    as (m' & h' & outs & Hrun & Hinv' & Hact' & _ & _ & _ & _).
  destruct (Hact' Hsome) as [[name v] Hav].
  pose proof (manager_run_context base contextOf tr _ _ _ _ _ Hinv0 Hrun)
    as Hpatched.
  rewrite Hact0 in Hpatched. specialize (Hpatched _ Hav). cbn in Hpatched.
  pose proof Hinv' as (_ & _ & _ & _ & Hd' & _ & Hv' & _).
  unfold view_state_ok in Hv'. rewrite Hav in Hv'. cbn in Hv'.
  destruct Hv' as (-> & Hcont & Hcr & Hctx).
  exists m', h', outs, v. split_and!; try done.
  intros tr1 tr2 ->.
  destruct (manager_run_inv base contextOf tr1 _ h Hinv0)
    as (m1 & h1 & o1 & Hrun1 & Hinv1 & Hact1 & _ & _ & _ & _).
  destruct (manager_run_inv base contextOf tr2 m1 h1 Hinv1)
    as (m2 & h2 & o2 & Hrun2 & _ & _ & Hkeep2 & _ & _ & _).
  pose proof (manager_run_context base contextOf tr1 _ _ _ _ _ Hinv0 Hrun1)
    as Hpatched1.
  rewrite Hact0 in Hpatched1.
  rewrite manager_run_app, Hrun1 in Hrun. cbn in Hrun.
  rewrite Hrun2 in Hrun. cbn in Hrun.
  assert (m2 = m') as -> by congruence.
  destruct Hinv1 as (_ & _ & _ & _ & _ & _ & Hv1 & _).
  unfold view_state_ok in Hv1.
  exists m1, h1, o1. split; [done|].
  destruct (activeView m1) as [av1|] eqn:Hav1.
  - destruct Hv1 as (_ & Hcont1 & Hcr1 & _).
    rewrite Hcont1, Hcr1. split_and!; [done..|].
    intros _. specialize (Hkeep2 av1 eq_refl). rewrite Hav in Hkeep2.
    injection Hkeep2 as <-. split; [done|].
    by apply (Hpatched1 _ eq_refl).
  - destruct Hv1 as (Hcont1 & Hcr1). rewrite Hcont1, Hcr1. cbn.
    split_and!; [lia..|].
    intros Hn. destruct (Hact1 Hn) as [? ?]. done.
Qed.

(** ** Rendered events *)

Lemma rendered_subscriber_output (d : ScheduleOnDirective) (outs : list JSVal) :
  rendered_output (rendered_subscriber d outs) = outs.
Proof.
  unfold rendered_subscriber, onRendered.
  induction outs as [|n outs IH]; [done|].
  cbn. destruct (_renderObserver d); cbn; by rewrite IH.
Qed.

Lemma rendered_subscriber_observer (d : ScheduleOnDirective) (outs : list JSVal) :
  observer_calls (rendered_subscriber d outs)
  = match _renderObserver d with
    | Some o => (λ n, (o, n)) <$> outs
    | None => []
    end.
Proof.
  unfold rendered_subscriber, onRendered.
  induction outs as [|n outs IH]; [by destruct (_renderObserver d)|].
  cbn. destruct (_renderObserver d); cbn; by rewrite IH.
Qed.

(** C6. Whatever notifications reach the anchor and whenever the strategy
    fires, the subscriber of [ngOnInit] sends through [rendered$] exactly the
    payloads of the commits that executed, one event each and in order, and
    calls the configured render-callback observer once per such event with
    the same value (not at all if none is configured). Commit requests that
    were overwritten in the coalescing slot, or that are still pending,
    produce no event: requests = rendered events + discarded + pending. The
    next firing of the strategy renders the pending commit once, if there is
    one. *)
Theorem rendered_once_per_executed_commit :
  ∀ (base : gmap string string) (contextOf : RxNotification → JSObject)
    (d : ScheduleOnDirective) (h : Heap) (tr : list ManagerEvent),
    ∃ (m' : RxTemplateManager) (h' : Heap) (outs : list JSVal),
      manager_run contextOf tr (build_templateManager base d) h
      = Some (m', h', outs)
      ∧ rendered_output (rendered_subscriber d outs) = outs
      ∧ observer_calls (rendered_subscriber d outs)
        = match _renderObserver d with
          | Some o => (λ n, (o, n)) <$> outs
          | None => []
          end
      ∧ length outs = executed (coordinator m')
      ∧ length (notifications tr)
        = length (rendered_output (rendered_subscriber d outs))
          + discarded (coordinator m') + pending_count (coordinator m')
      ∧ rendered_output (strategyFires (with_templateManager (Some m') d)).2
        = match pending (coordinator m') with
          | Some payload => [payload]
          | None => []
          end.
Proof.
  intros base contextOf d h tr.
  destruct (build_templateManager_inv base d h) as (Hinv0 & _ & _ & Hco0).
  destruct (manager_run_inv base contextOf tr _ h Hinv0)
    as (m' & h' & outs & Hrun & Hinv' & _ & _ & _ & Hex & Hreq).
  rewrite Hco0 in Hex, Hreq. cbn in Hex, Hreq.
  destruct Hinv' as (_ & _ & _ & _ & _ & _ & _ & Hco').
  unfold coordinator_ok in Hco'.
  exists m', h', outs. split; [done|].
  rewrite rendered_subscriber_output, rendered_subscriber_observer.
  split_and!; [done|done|lia|lia|].
  unfold strategyFires, commitFires. cbn.
  destruct (pending (coordinator m')); cbn; [|done].
  by destruct (_renderObserver d).
Qed.

(** ** What [ngOnInit] renders *)

Lemma ngOnInit_received (base : gmap string string)
    (contextOf : RxNotification → JSObject) (d : ScheduleOnDirective) (h : Heap) :
  templateManager d = None →
  ∃ (d' : ScheduleOnDirective) (h' : Heap) (m' : RxTemplateManager),
    ngOnInit contextOf (ngOnChanges base d) h = Some (d', h')
    ∧ templateManager d' = Some m'
    ∧ received m' = [ngOnInit_notification].
Proof.
  intros Hnone. unfold ngOnChanges. rewrite Hnone.
  unfold ngOnInit, _createTemplateManager, manager_render.
  cbn [templateManager with_templateManager mbind option_bind].
  change (Notify <$> next_values (of_ ngOnInit_notification))
    with [Notify ngOnInit_notification].
  destruct (build_templateManager_inv base d h) as (Hinv0 & _ & Hrec0 & _).
  destruct (manager_run_inv base contextOf [Notify ngOnInit_notification] _ h Hinv0)
    as (m' & h' & outs & Hrun & _ & _ & _ & Hrec & _ & _).
  rewrite Hrec0 in Hrec. cbn in Hrec. rewrite Hrun. cbn.
  unfold Subscription_add. destruct (closed (subscription d)); cbn.
  - eexists _, h', _. split; [reflexivity|]. split; [reflexivity|]. done.
  - eexists _, h', _. split; [reflexivity|]. split; [reflexivity|]. done.
Qed.

Lemma received_after_init_eq (base : gmap string string)
    (contextOf : RxNotification → JSObject) (d : ScheduleOnDirective) (h : Heap) :
  templateManager d = None →
  received_after_init base contextOf d h = [ngOnInit_notification].
Proof.
  intros Hnone.
  destruct (ngOnInit_received base contextOf d h Hnone)
    as (d' & h' & m' & Hinit & Hm & Hrec).
  unfold received_after_init. by rewrite Hinit, Hm.
Qed.

(** C2. Whatever the inputs of the directive (strategy, render callback,
    parent and zone flags, template, provider), [ngOnInit] succeeds once the
    manager has been created, and the notifications that reach the template
    manager's [render] are exactly one: kind Next, value [true], hasValue
    [true]. Nothing of another kind, and nothing that depends on the
    directive, flows through the pipeline. *)
Theorem ngOnInit_renders_one_next :
  ∀ (base : gmap string string) (contextOf : RxNotification → JSObject)
    (d : ScheduleOnDirective) (h : Heap),
    templateManager d = None →
    (∃ (d' : ScheduleOnDirective) (h' : Heap),
        ngOnInit contextOf (ngOnChanges base d) h = Some (d', h'))
    ∧ received_after_init base contextOf d h
      = [ {| value := JSBool true; hasValue := true; kind := Next;
             error := JSBool false; complete := false |} ]
    ∧ filter (λ n, kind n ≠ Next) (received_after_init base contextOf d h) = []
    ∧ next_values (of_ ngOnInit_notification) = received_after_init base contextOf d h.
Proof.
  intros base contextOf d h Hnone.
  rewrite (received_after_init_eq base contextOf d h Hnone).
  destruct (ngOnInit_received base contextOf d h Hnone)
    as (d' & h' & m' & Hinit & _ & _).
  split_and!; try done. by exists d', h'.
Qed.

(** C1, as the code has it. The directive binds no source and produces no
    Suspense notification at all: during [ngOnInit] the template manager
    receives, synchronously, a first and only notification, which is a Next
    with a value. So there is never more than one Suspense notification, and
    none after the first Next, Error or Complete. *)
Theorem ngOnInit_produces_no_suspense :
  ∀ (base : gmap string string) (contextOf : RxNotification → JSObject)
    (d : ScheduleOnDirective) (h : Heap),
    templateManager d = None →
    filter (λ n, kind n = Suspense) (received_after_init base contextOf d h) = []
    ∧ ∃ n : RxNotification,
        received_after_init base contextOf d h = [n]
        ∧ kind n = Next ∧ hasValue n = true.
Proof.
  intros base contextOf d h Hnone.
  rewrite (received_after_init_eq base contextOf d h Hnone).
  split; [done|]. by exists ngOnInit_notification.
Qed.

(** ** Concrete runs *)

(** C1, as the spec states it, fails on a freshly constructed directive: the
    notifications produced by its [ngOnInit] do not open with a Suspense
    notification. *)
Lemma ngOnInit_suspense_counterexample :
  suspense_once_first
    (received_after_init ∅ demo_contextOf demo_directive ∅) = false.
Proof. vm_compute. reflexivity. Qed.

Lemma ngOnInit_produces_no_suspense_witness :
  templateManager demo_directive = None
  ∧ (filter (λ n, kind n = Suspense)
       (received_after_init ∅ demo_contextOf demo_directive ∅) = []
     ∧ ∃ n : RxNotification,
         received_after_init ∅ demo_contextOf demo_directive ∅ = [n]
         ∧ kind n = Next ∧ hasValue n = true).
Proof.
  split; [reflexivity|].
  apply (ngOnInit_produces_no_suspense ∅ demo_contextOf demo_directive ∅).
  reflexivity.
Defined.

Lemma ngOnInit_renders_one_next_witness :
  templateManager demo_directive = None
  ∧ ((∃ (d' : ScheduleOnDirective) (h' : Heap),
         ngOnInit demo_contextOf (ngOnChanges ∅ demo_directive) ∅ = Some (d', h'))
     ∧ received_after_init ∅ demo_contextOf demo_directive ∅
       = [ {| value := JSBool true; hasValue := true; kind := Next;
              error := JSBool false; complete := false |} ]
     ∧ filter (λ n, kind n ≠ Next)
         (received_after_init ∅ demo_contextOf demo_directive ∅) = []
     ∧ next_values (of_ ngOnInit_notification)
       = received_after_init ∅ demo_contextOf demo_directive ∅).
Proof.
  split; [reflexivity|].
  apply (ngOnInit_renders_one_next ∅ demo_contextOf demo_directive ∅).
  reflexivity.
Defined.

Lemma shared_template_single_view_witness :
  existsb is_notify demo_trace = true
  ∧ ∃ (m' : RxTemplateManager) (h' : Heap) (outs : list JSVal)
      (v : EmbeddedViewRef),
      manager_run demo_contextOf demo_trace
        (build_templateManager ∅ demo_directive) ∅
      = Some (m', h', outs)
      ∧ viewsCreated m' = 1
      ∧ viewsDestroyed m' = 0
      ∧ viewContainer m' = [v]
      ∧ activeView m' = Some {| templateName := "nextTpl"; viewRef := v |}
      ∧ is_Some (h' !! context v)
      ∧ h' !! context v
        = view_context_after demo_contextOf (notifications demo_trace)
      ∧ ∀ tr1 tr2 : list ManagerEvent, demo_trace = tr1 ++ tr2 →
          ∃ (m1 : RxTemplateManager) (h1 : Heap) (o1 : list JSVal),
            manager_run demo_contextOf tr1
              (build_templateManager ∅ demo_directive) ∅
            = Some (m1, h1, o1)
            ∧ (length (viewContainer m1) ≤ 1)%nat
            ∧ (viewsCreated m1 ≤ 1)%nat
            ∧ (existsb is_notify tr1 = true →
               viewContainer m1 = [v]
               ∧ h1 !! context v
                 = view_context_after demo_contextOf (notifications tr1)).
Proof.
  split; [reflexivity|].
  apply (shared_template_single_view ∅ demo_contextOf demo_directive ∅ demo_trace).
  reflexivity.
Defined.

Lemma updateViewContext_patches_in_place_witness :
  demo_heap !! 2%positive
  = Some (<["$implicit" := JSNum 9]> (<["$error" := JSBool true]> ∅))
  ∧ demo_heap !! context demo_view = Some (viewContextLiteral (JSNum 1))
  ∧ ∃ (h' : Heap) (o' vo' : JSObject),
      updateViewContext (JSNum 9) demo_view 2%positive demo_heap = Some h'
      ∧ h' !! 2%positive = Some o'
      ∧ h' !! context demo_view = Some vo'
      ∧ (∀ k, is_Some ((<["$implicit" := JSNum 9]> (<["$error" := JSBool true]> ∅)
                         : JSObject) !! k) →
              vo' !! k
              = (<["$implicit" := JSNum 9]> (<["$error" := JSBool true]> ∅)
                  : JSObject) !! k
              ∧ vo' !! k = o' !! k)
      ∧ (∀ k, (<["$implicit" := JSNum 9]> (<["$error" := JSBool true]> ∅)
                : JSObject) !! k = None →
              vo' !! k = viewContextLiteral (JSNum 1) !! k)
      ∧ (∀ l, l ≠ context demo_view → h' !! l = demo_heap !! l)
      ∧ dom h' = dom demo_heap.
Proof.
  split; [reflexivity|]. split; [reflexivity|].
  apply (updateViewContext_patches_in_place (JSNum 9) demo_view 2%positive
           demo_heap); reflexivity.
Defined.

Example updateViewContext_demo :
  (updateViewContext (JSNum 9) demo_view 2%positive demo_heap
     ≫= λ h', h' !! 1%positive)
  = Some (<["$suspense" := JSBool false]>
         (<["$complete" := JSBool false]>
         (<["$error" := JSBool true]>
         (<["$implicit" := JSNum 9]>
         (<["scheduleOn" := JSNum 1]> ∅))))).
Proof. vm_compute. reflexivity. Qed.

Example patched_context_demo :
  (manager_run demo_contextOf demo_trace
     (build_templateManager ∅ demo_directive) ∅
     ≫= λ r, r.1.2 !! 1%positive)
  = Some (<["$suspense" := JSBool false]>
         (<["$complete" := JSBool false]>
         (<["$error" := JSBool false]>
         (<["$implicit" := JSNum 3]>
         (<["scheduleOn" := JSNum 3]> ∅)))))
  ∧ view_context_after demo_contextOf (notifications demo_trace)
    = Some (<["$suspense" := JSBool false]>
           (<["$complete" := JSBool false]>
           (<["$error" := JSBool false]>
           (<["$implicit" := JSNum 3]>
           (<["scheduleOn" := JSNum 3]> ∅))))).
Proof. split; vm_compute; reflexivity. Qed.

Example coalescing_demo :
  (manager_run demo_contextOf
     [Notify (demo_next 1); Notify (demo_next 2); Notify (demo_next 3); CommitFires]
     (build_templateManager ∅ demo_directive) ∅
     ≫= λ r, Some (r.2, viewsCreated r.1.1, discarded (coordinator r.1.1)))
  = Some ([JSNum 3], 1, 2).
Proof. vm_compute. reflexivity. Qed.


(** * Further properties of the code *)

(** ** Patching view contexts *)

Lemma map_union_absorb (m1 m2 : JSObject) :
  dom m2 ⊆ dom m1 → m1 ∪ m2 = m1.
Proof.
  intros Hsub. apply map_eq. intros k.
  destruct (m1 !! k) as [x|] eqn:Hk.
  - by apply lookup_union_Some_l.
  - apply lookup_union_None. split; [done|].
    apply not_elem_of_dom. intros Hin. apply Hsub in Hin.
    by apply not_elem_of_dom in Hk.
Qed.

(** X1. [updateViewContext] is a merge: the view's context object becomes
    the supplied context laid over its old properties, and the rest of the
    heap stays as it was. *)
Theorem updateViewContext_is_merge :
  ∀ (v : JSVal) (view : EmbeddedViewRef) (ctx : loc) (h : Heap)
    (o vo : JSObject),
    h !! ctx = Some o →
    h !! context view = Some vo →
    updateViewContext v view ctx h = Some (<[context view := o ∪ vo]> h).
Proof. intros v view ctx h o vo. apply updateViewContext_union. Qed.

(** X2. Patching a view with its own context object changes nothing. *)
Theorem updateViewContext_alias_noop :
  ∀ (v : JSVal) (view : EmbeddedViewRef) (h : Heap) (vo : JSObject),
    h !! context view = Some vo →
    updateViewContext v view (context view) h = Some h.
Proof.
  intros v view h vo Hvo.
  rewrite (updateViewContext_union v view (context view) h vo vo Hvo Hvo).
  f_equal. rewrite (idemp_L (∪) vo). by apply insert_id.
Qed.

(** X3. Patching twice with the same context is patching once. The value
    arguments of the two calls need not agree. *)
Theorem updateViewContext_idempotent :
  ∀ (v v' : JSVal) (view : EmbeddedViewRef) (ctx : loc) (h : Heap)
    (o vo : JSObject),
    h !! ctx = Some o →
    h !! context view = Some vo →
    updateViewContext v view ctx h ≫= updateViewContext v' view ctx
    = updateViewContext v view ctx h.
Proof.
  intros v v' view ctx h o vo Ho Hvo.
  rewrite (updateViewContext_union v view ctx h o vo Ho Hvo). cbn.
  set (h1 := <[context view := o ∪ vo]> h).
  assert (h1 !! context view = Some (o ∪ vo)) as Hvo1 by apply lookup_insert_eq.
  destruct (decide (ctx = context view)) as [Heq|Hne].
  - subst ctx. assert (o = vo) as -> by congruence.
    rewrite (updateViewContext_union v' view (context view) h1 _ _ Hvo1 Hvo1).
    f_equal. rewrite (idemp_L (∪) (vo ∪ vo)). by apply insert_id.
  - assert (h1 !! ctx = Some o) as Ho1 by (subst h1; by rewrite lookup_insert_ne).
    rewrite (updateViewContext_union v' view ctx h1 _ _ Ho1 Hvo1).
    f_equal. rewrite (assoc_L (∪)), (idemp_L (∪) o). by apply insert_id.
Qed.

Lemma viewContextLiteral_dom (v : JSVal) :
  dom (viewContextLiteral v)
  = ({["$implicit"; "scheduleOn"; "$error"; "$complete"; "$suspense"]}
      : gset string).
Proof.
  unfold viewContextLiteral. rewrite !dom_insert_L, dom_empty_L. set_solver.
Qed.

(** X4. A view whose context was built by [createViewContext] and is then
    patched with a context newly built for another value ends up with
    exactly the context of that value; the two context objects stay
    distinct, and the new one is left as built. *)
Theorem createViewContext_then_update :
  ∀ (v v' : JSVal) (view : EmbeddedViewRef) (h : Heap),
    h !! context view = Some (viewContextLiteral v) →
    let c := (createViewContext v' h).1 in
    let h1 := (createViewContext v' h).2 in
    c ≠ context view
    ∧ ∃ h2 : Heap,
        updateViewContext v' view c h1 = Some h2
        ∧ h2 !! context view = Some (viewContextLiteral v')
        ∧ h2 !! c = Some (viewContextLiteral v')
        ∧ dom h2 = {[c]} ∪ dom h.
Proof.
  intros v v' view h Hvo. cbn.
  assert (fresh (dom h) ≠ context view) as Hne.
  { intros Heq. apply (is_fresh (dom h)). rewrite Heq. by apply elem_of_dom. }
  split; [done|].
  rewrite (updateViewContext_union v' view _ _ (viewContextLiteral v')
             (viewContextLiteral v)).
  - eexists. split; [reflexivity|].
    rewrite map_union_absorb by (by rewrite !viewContextLiteral_dom).
    rewrite lookup_insert_eq, lookup_insert_ne, lookup_insert_eq by done.
    split_and!; try done.
    rewrite dom_insert_lookup_L by (rewrite lookup_insert_ne by done; eauto).
    apply dom_insert_L.
  - apply lookup_insert_eq.
  - by rewrite lookup_insert_ne.
Qed.

(** ** Creating the template manager *)

Lemma build_templateManager_eq (base : gmap string string)
    (d : ScheduleOnDirective) :
  build_templateManager base d
  = {| config :=
         {| cfg_createViewContext := createViewContext;
            cfg_updateViewContext := updateViewContext;
            cfg_parent := renderParent d;
            cfg_patchZone := patchZone d;
            cfg_defaultStrategyName := primaryStrategy (strategyProvider d);
            cfg_notificationToTemplateName := notificationToTemplateName base |};
       templates := {[ "nextTpl" := nextTemplateRef d ]};
       viewContainer := []; activeView := None;
       coordinator := new_RenderCoordinator; viewsCreated := 0;
       viewsDestroyed := 0; received := []; reported := [] |}.
Proof.
  unfold build_templateManager. by rewrite RxScheduleOnTemplateNames_next.
Qed.

(** X5. [ngOnChanges] creates the template manager at most once: a second
    call returns the directive as it is, and a directive that has a manager
    is never given another one. *)
Theorem ngOnChanges_idempotent :
  ∀ (base : gmap string string) (d : ScheduleOnDirective),
    ngOnChanges base (ngOnChanges base d) = ngOnChanges base d
    ∧ is_Some (templateManager (ngOnChanges base d))
    ∧ (templateManager (ngOnChanges base d) = templateManager d
       ∨ templateManager d = None).
Proof.
  intros base d. unfold ngOnChanges.
  destruct (templateManager d) as [m|] eqn:Hm.
  - rewrite Hm. split_and!; eauto.
  - cbn. split_and!; eauto.
Qed.

(** X6. The manager's settings are taken when it is created: the [parent]
    and [patchZone] settings are the values of the inputs at the first
    [ngOnChanges], and assigning the inputs afterwards, followed by another
    [ngOnChanges], leaves the manager and its settings as they were. *)
Theorem manager_settings_fixed_at_creation :
  ∀ (base : gmap string string) (d : ScheduleOnDirective) (b1 b2 : bool),
    templateManager d = None →
    ∃ m : RxTemplateManager,
      templateManager (ngOnChanges base d) = Some m
      ∧ cfg_parent (config m) = renderParent d
      ∧ cfg_patchZone (config m) = patchZone d
      ∧ templateManager
          (ngOnChanges base
             (set_patchZone b2 (set_renderParent b1 (ngOnChanges base d))))
        = Some m.
Proof.
  intros base d b1 b2 Hnone.
  assert (ngOnChanges base d = _createTemplateManager base d) as ->
    by (unfold ngOnChanges; by rewrite Hnone).
  exists (build_templateManager base d).
  unfold ngOnChanges. cbn. rewrite build_templateManager_eq. by split_and!.
Qed.

(** X7. Every template name the resolver can answer is registered in the
    manager the directive builds, under the directive's one template; and
    that is the only template registered. *)
Theorem resolved_template_is_registered :
  ∀ (base : gmap string string) (d : ScheduleOnDirective)
    (k : RxNotificationKind) (v : JSVal),
    templates (build_templateManager base d)
    = {[ "nextTpl" := nextTemplateRef d ]}
    ∧ (notificationToTemplateName base k v
         ≫= λ name, templates (build_templateManager base d) !! name)
      = Some (nextTemplateRef d).
Proof.
  intros base d k v. rewrite build_templateManager_eq. cbn. split; [done|].
  assert (notificationToTemplateName base k v = Some "nextTpl") as ->
    by (destruct k; apply RxScheduleOnTemplateNames_next).
  cbn. apply lookup_singleton_eq.
Qed.

(** ** The life of the directive *)

Lemma ngOnInit_state (base : gmap string string)
    (contextOf : RxNotification → JSObject) (d : ScheduleOnDirective) (h : Heap) :
  templateManager d = None →
  ∃ (d1 : ScheduleOnDirective) (h1 : Heap) (m1 : RxTemplateManager),
    ngOnInit contextOf (ngOnChanges base d) h = Some (d1, h1)
    ∧ templateManager d1 = Some m1
    ∧ _renderObserver d1 = _renderObserver d
    ∧ subscription d1 = (Subscription_add RenderSubscription (subscription d)).1
    ∧ pending (coordinator m1)
      = if closed (subscription d) then None else Some (JSBool true).
Proof.
  intros Hnone. unfold ngOnChanges. rewrite Hnone.
  unfold ngOnInit, _createTemplateManager, manager_render.
  cbn [templateManager with_templateManager mbind option_bind].
  change (Notify <$> next_values (of_ ngOnInit_notification))
    with [Notify ngOnInit_notification].
  destruct (build_templateManager_inv base d h) as (Hinv0 & _ & _ & Hco0).
  destruct (manager_notify_inv base contextOf ngOnInit_notification _ h Hinv0)
    as (m' & h' & Hn & _ & _ & _ & _ & Hco).
  cbn [manager_run manager_step]. rewrite Hn. cbn.
  unfold Subscription_add. destruct (closed (subscription d)) eqn:Hcl; cbn.
  - eexists _, h', _. split_and!; reflexivity.
  - eexists _, h', _. split_and!; try reflexivity.
    rewrite decide_False by apply not_elem_of_nil. by rewrite Hco.
Qed.

(** X8. [ngOnInit] needs the template manager: on a directive whose manager
    was never created it throws, and once [ngOnChanges] has run it
    succeeds. *)
Theorem ngOnInit_needs_manager :
  ∀ (base : gmap string string) (contextOf : RxNotification → JSObject)
    (d : ScheduleOnDirective) (h : Heap),
    templateManager d = None →
    ngOnInit contextOf d h = None
    ∧ is_Some (ngOnInit contextOf (ngOnChanges base d) h).
Proof.
  intros base contextOf d h Hnone. split.
  - unfold ngOnInit. by rewrite Hnone.
  - destruct (ngOnInit_state base contextOf d h Hnone) as (d1 & h1 & _ & -> & _).
    by eexists.
Qed.

(** X9. [ngOnDestroy] releases what [ngOnInit] subscribed: on a directive
    with an open, empty subscription, [ngOnInit] registers the render
    subscription, and the [ngOnDestroy] that follows tears down exactly that
    one and leaves the subscription closed and empty. *)
Theorem ngOnDestroy_releases_render_subscription :
  ∀ (base : gmap string string) (contextOf : RxNotification → JSObject)
    (d : ScheduleOnDirective) (h : Heap),
    templateManager d = None →
    subscription d = new_Subscription →
    ∃ (d1 : ScheduleOnDirective) (h1 : Heap),
      ngOnInit contextOf (ngOnChanges base d) h = Some (d1, h1)
      ∧ subscription d1 = {| closed := false; teardowns := [RenderSubscription] |}
      ∧ (ngOnDestroy d1).2 = [RenderSubscription]
      ∧ subscription (ngOnDestroy d1).1 = {| closed := true; teardowns := [] |}.
Proof.
  intros base contextOf d h Hnone Hsub.
  destruct (ngOnInit_state base contextOf d h Hnone)
    as (d1 & h1 & m1 & Hinit & _ & _ & Hs1 & _).
  rewrite Hsub in Hs1. cbn in Hs1.
  exists d1, h1. split; [done|]. split; [done|].
  unfold ngOnDestroy. rewrite Hs1. cbn. done.
Qed.






(** ** The ['instant'] strategy, repeated *)

(** X12. Applying the ['instant'] behavior [n] times in a row calls [work]
    [n] times, in sequence, and still hands back the observable it was
    given. *)
Theorem instant_behavior_repeated :
  ∀ (C W O : Type) (detectChanges : C → W → W) (work : W → W) (n : nat)
    (o : O) (w : World W),
    apply_times n (behavior (instant detectChanges) work) o w
    = (o, {| world_state := Nat.iter n work (world_state w);
             work_calls := n + work_calls w |}).
Proof.
  intros C W O detectChanges work n o.
  induction n as [|n IH]; intros [st calls]; [done|].
  change (apply_times (S n) (behavior (instant detectChanges) work) o
            {| world_state := st; work_calls := calls |})
    with (apply_times n (behavior (instant detectChanges) work) o
            {| world_state := work st; work_calls := S calls |}).
  rewrite IH. cbn [world_state work_calls]. f_equal. f_equal.
  - symmetry. apply Nat.iter_succ_r.
  - lia.
Qed.

(** ** RxLetInstant *)

Ltac rx_cbn := cbn -[Nat.ltb Nat.leb still_subscribed].

Lemma RxLetInstant_assignments_eq (t0 : Time) (destroyed : option Time)
    (strategyValues letValues : TimedObservable JSVal) :
  RxLetInstant_assignments t0 destroyed strategyValues letValues
  = match strategyValues t0 with
    | (t, OnNext strategy) :: _ =>
        if bool_decide (strategy = JSStr "instant") then
          match letValues t with
          | (t', OnNext _) :: _ =>
              if still_subscribed t0 destroyed t' then [assign_normal t'] else []
          | _ => []
          end
        else []
    | _ => []
    end.
Proof.
  unfold RxLetInstant_assignments, RxLetInstant_pipeline, rx_switchMap,
    rx_filter, rx_take, assign_normal.
  destruct (strategyValues t0) as [|[t [s|x|]] rest]; rx_cbn; try done.
  destruct (bool_decide (s = JSStr "instant")); rx_cbn; [|done].
  destruct (letValues t) as [|[t' [v|x|]] rest']; rx_cbn; try done.
  all: destruct (t' <=? t)%nat eqn:Hle; rx_cbn; rewrite ?app_nil_r; try done.
  all: destruct (t' <? t)%nat eqn:Hlt; rx_cbn; rewrite ?app_nil_r; try done.
Qed.

(** X13. What [RxLetInstant] does, in full: it looks at the first event of
    the strategy stream only; if that is the name ['instant'], it subscribes
    to the value stream at that instant and, at the first value, assigns
    ['normal'] to the strategy of the [LetDirective], provided the
    subscription is still served at that instant: the directive is not
    destroyed at all, or the value arrives before the instant of
    [ngOnDestroy], or it arrives during the [ngOnInit] call itself (what is
    delivered while subscribing reaches the callback even if [ngOnDestroy]
    ran before [ngOnInit]). In every other case it assigns nothing. *)
Theorem RxLetInstant_behaviour :
  ∀ (t0 : Time) (destroyed : option Time)
    (strategyValues letValues : TimedObservable JSVal),
    RxLetInstant_assignments t0 destroyed strategyValues letValues
    = match strategyValues t0 with
      | (t, OnNext strategy) :: _ =>
          if bool_decide (strategy = JSStr "instant") then
            match letValues t with
            | (t', OnNext _) :: _ =>
                match destroyed with
                | None => [assign_normal t']
                | Some t1 =>
                    if ((t' <? t1) || (t' =? t0))%nat then [assign_normal t']
                    else []
                end
            | _ => []
            end
          else []
      | _ => []
      end.
Proof.
  intros t0 destroyed strategyValues letValues.
  rewrite RxLetInstant_assignments_eq. unfold still_subscribed.
  destruct (strategyValues t0) as [|[t [s|x|]] rest]; try done.
  destruct (bool_decide (s = JSStr "instant")); [|done].
  destruct (letValues t) as [|[t' [v|x|]] rest']; try done.
  destruct destroyed as [t1|]; [|done]. by rewrite orb_comm.
Qed.

(** X14. [RxLetInstant] assigns the strategy at most once, whatever the two
    streams deliver, and always the name ['normal']. If the directive is
    destroyed, an assignment comes before the instant of [ngOnDestroy], with
    one exception: when [ngOnDestroy] ran no later than [ngOnInit], a value
    delivered during the [ngOnInit] call itself is still assigned. *)
Theorem RxLetInstant_at_most_once :
  ∀ (t0 : Time) (destroyed : option Time)
    (strategyValues letValues : TimedObservable JSVal),
    (length (RxLetInstant_assignments t0 destroyed strategyValues letValues)
     ≤ 1)%nat
    ∧ Forall (λ a : Time * StrategyInput,
                a.2 = StaticName (JSStr "normal")
                ∧ match destroyed with
                  | None => True
                  | Some t1 => (a.1 < t1 ∨ (a.1 = t0 ∧ t1 ≤ t0))%nat
                  end)
        (RxLetInstant_assignments t0 destroyed strategyValues letValues).
Proof.
  intros t0 destroyed strategyValues letValues.
  rewrite RxLetInstant_assignments_eq.
  destruct (strategyValues t0) as [|[t [s|x|]] rest];
    try (split; [cbn; lia|constructor]).
  destruct (bool_decide (s = JSStr "instant"));
    try (split; [cbn; lia|constructor]).
  destruct (letValues t) as [|[t' [v|x|]] rest'];
    try (split; [cbn; lia|constructor]).
  destruct (still_subscribed t0 destroyed t') eqn:Hs;
    [|split; [cbn; lia|constructor]].
  split; [cbn; lia|]. constructor; [|constructor]. split; [done|].
  unfold still_subscribed in Hs. destruct destroyed as [t1|]; [|done].
  cbn [fst assign_normal].
  apply orb_true_iff in Hs as [Heq|Hlt].
  - apply Nat.eqb_eq in Heq. lia.
  - apply Nat.ltb_lt in Hlt. lia.
Qed.

(** X15. Only the first strategy name counts: if it is not ['instant'],
    [RxLetInstant] never assigns the strategy, whatever the strategy stream
    delivers afterwards, ['instant'] included. *)
Theorem RxLetInstant_first_name_only :
  ∀ (t0 : Time) (destroyed : option Time)
    (strategyValues letValues : TimedObservable JSVal)
    (t : Time) (strategy : JSVal) (rest : list (Time * ObsEvent JSVal)),
    strategyValues t0 = (t, OnNext strategy) :: rest →
    bool_decide (strategy = JSStr "instant") = false →
    RxLetInstant_assignments t0 destroyed strategyValues letValues = [].
Proof.
  intros t0 destroyed strategyValues letValues t strategy rest Hs Hne.
  by rewrite RxLetInstant_assignments_eq, Hs, Hne.
Qed.

(** ** A directive destroyed before [ngOnInit] *)


(** ** Further concrete runs *)

Lemma updateViewContext_is_merge_witness :
  demo_heap !! 2%positive
  = Some (<["$implicit" := JSNum 9]> (<["$error" := JSBool true]> ∅))
  ∧ demo_heap !! context demo_view = Some (viewContextLiteral (JSNum 1))
  ∧ updateViewContext (JSNum 9) demo_view 2%positive demo_heap
    = Some (<[context demo_view :=
                (<["$implicit" := JSNum 9]> (<["$error" := JSBool true]> ∅))
                ∪ viewContextLiteral (JSNum 1)]> demo_heap).
Proof.
  split; [reflexivity|]. split; [reflexivity|].
  apply (updateViewContext_is_merge (JSNum 9) demo_view 2%positive demo_heap);
    reflexivity.
Defined.

Lemma updateViewContext_alias_noop_witness :
  demo_heap !! context demo_view = Some (viewContextLiteral (JSNum 1))
  ∧ updateViewContext (JSNum 9) demo_view (context demo_view) demo_heap
    = Some demo_heap.
Proof.
  split; [reflexivity|].
  apply (updateViewContext_alias_noop (JSNum 9) demo_view demo_heap
           (viewContextLiteral (JSNum 1))).
  reflexivity.
Defined.

Lemma updateViewContext_idempotent_witness :
  demo_heap !! 2%positive
  = Some (<["$implicit" := JSNum 9]> (<["$error" := JSBool true]> ∅))
  ∧ demo_heap !! context demo_view = Some (viewContextLiteral (JSNum 1))
  ∧ updateViewContext (JSNum 9) demo_view 2%positive demo_heap
      ≫= updateViewContext (JSNum 8) demo_view 2%positive
    = updateViewContext (JSNum 9) demo_view 2%positive demo_heap.
Proof.
  split; [reflexivity|]. split; [reflexivity|].
  apply (updateViewContext_idempotent (JSNum 9) (JSNum 8) demo_view 2%positive
           demo_heap
           (<["$implicit" := JSNum 9]> (<["$error" := JSBool true]> ∅))
           (viewContextLiteral (JSNum 1)));
    reflexivity.
Defined.

Lemma createViewContext_then_update_witness :
  demo_heap !! context demo_view = Some (viewContextLiteral (JSNum 1))
  ∧ (createViewContext (JSNum 4) demo_heap).1 ≠ context demo_view
  ∧ ∃ h2 : Heap,
      updateViewContext (JSNum 4) demo_view
        (createViewContext (JSNum 4) demo_heap).1
        (createViewContext (JSNum 4) demo_heap).2 = Some h2
      ∧ h2 !! context demo_view = Some (viewContextLiteral (JSNum 4))
      ∧ h2 !! (createViewContext (JSNum 4) demo_heap).1
        = Some (viewContextLiteral (JSNum 4))
      ∧ dom h2 = {[(createViewContext (JSNum 4) demo_heap).1]} ∪ dom demo_heap.
Proof.
  split; [reflexivity|].
  apply (createViewContext_then_update (JSNum 1) (JSNum 4) demo_view demo_heap).
  reflexivity.
Defined.

Lemma manager_settings_fixed_at_creation_witness :
  templateManager demo_directive = None
  ∧ ∃ m : RxTemplateManager,
      templateManager (ngOnChanges ∅ demo_directive) = Some m
      ∧ cfg_parent (config m) = renderParent demo_directive
      ∧ cfg_patchZone (config m) = patchZone demo_directive
      ∧ templateManager
          (ngOnChanges ∅
             (set_patchZone false
                (set_renderParent false (ngOnChanges ∅ demo_directive))))
        = Some m.
Proof.
  split; [reflexivity|].
  apply (manager_settings_fixed_at_creation ∅ demo_directive false false).
  reflexivity.
Defined.

Lemma ngOnInit_needs_manager_witness :
  templateManager demo_directive = None
  ∧ ngOnInit demo_contextOf demo_directive ∅ = None
  ∧ is_Some (ngOnInit demo_contextOf (ngOnChanges ∅ demo_directive) ∅).
Proof.
  split; [reflexivity|].
  apply (ngOnInit_needs_manager ∅ demo_contextOf demo_directive ∅).
  reflexivity.
Defined.

Lemma ngOnDestroy_releases_render_subscription_witness :
  templateManager demo_directive = None
  ∧ subscription demo_directive = new_Subscription
  ∧ ∃ (d1 : ScheduleOnDirective) (h1 : Heap),
      ngOnInit demo_contextOf (ngOnChanges ∅ demo_directive) ∅ = Some (d1, h1)
      ∧ subscription d1 = {| closed := false; teardowns := [RenderSubscription] |}
      ∧ (ngOnDestroy d1).2 = [RenderSubscription]
      ∧ subscription (ngOnDestroy d1).1 = {| closed := true; teardowns := [] |}.
Proof.
  split; [reflexivity|]. split; [reflexivity|].
  apply (ngOnDestroy_releases_render_subscription ∅ demo_contextOf
           demo_directive ∅); reflexivity.
Defined.



Lemma RxLetInstant_first_name_only_witness :
  demo_strategyValues 0
  = (0, OnNext (JSStr "normal")) :: [(1, OnNext (JSStr "instant"))]
  ∧ bool_decide (JSStr "normal" = JSStr "instant") = false
  ∧ RxLetInstant_assignments 0 None demo_strategyValues demo_letValues = [].
Proof.
  split; [reflexivity|]. split; [reflexivity|].
  apply (RxLetInstant_first_name_only 0 None demo_strategyValues demo_letValues
           0 (JSStr "normal") [(1, OnNext (JSStr "instant"))]);
    reflexivity.
Defined.


Example RxLetInstant_demo :
  RxLetInstant_assignments 3 None
    (λ t0, [(t0, OnNext (JSStr "instant")); (S t0, OnNext (JSStr "normal"))])
    demo_letValues
  = [assign_normal 4]
  ∧ RxLetInstant_assignments 3 (Some 4)
      (λ t0, [(t0, OnNext (JSStr "instant"))]) demo_letValues
    = [].
Proof. split; vm_compute; reflexivity. Qed.

Example RxLetInstant_destroyed_before_init :
  RxLetInstant_assignments 3 (Some 2)
    (λ t0, [(t0, OnNext (JSStr "instant"))])
    (λ t, [(t, OnNext (JSNum 1))])
  = [assign_normal 3]
  ∧ RxLetInstant_assignments 3 (Some 2)
      (λ t0, [(t0, OnNext (JSStr "instant"))]) demo_letValues
    = [].
Proof. split; vm_compute; reflexivity. Qed.
